(** * timeshap.plot.feature_level: feature-level explanation plots

    A shallow embedding of [src/timeshap/plot/feature_level.py]
    ([plot_feat_barplot] and [plot_global_feat]) and the properties of the
    feature selection and reshaping it performs before the table is handed
    to the chart renderer.

    Modelling conventions.
    - A Python float is a rational [Q]: the code only compares, negates,
      takes absolute values and averages, and rounding plays no part in
      the properties below.  [if threshold:] is [threshold != 0].
    - A [pd.DataFrame] is the list of its rows; a column the frame does
      not have is [None] in every row, and reading it raises [KeyError].
    - A [dict] is a [gmap]; a dict object passed by reference lives in a
      heap of dict objects, so that in-place updates are visible to the
      caller.
    - Exceptions are the [Raise] results of an error monad. *)

From Stdlib Require Import ZArith QArith Qabs Lqa List Permutation Sorted Lia.
From stdpp Require Import gmap strings.

Local Open Scope Z_scope.

(** ** Exceptions *)

Inductive exn : Type :=
| KeyError (key : string)
| IndexError.

Inductive result (A : Type) : Type :=
| Ok (a : A)
| Raise (e : exn).
Arguments Ok {A} a.
Arguments Raise {A} e.

#[global] Instance result_ret : MRet result := fun A a => Ok a.

#[global] Instance result_bind : MBind result := fun A B k r =>
  match r with
  | Ok a => k a
  | Raise e => Raise e
  end.

(** [[f(a) for a in l]]: the first exception raised is the result. *)
Fixpoint map_result {A B} (f : A -> result B) (l : list A) : result (list B) :=
  match l with
  | [] => Ok []
  | a :: l' => b ← f a; bs ← map_result f l'; Ok (b :: bs)
  end.

(** ** Data *)

(** One row of the attribution table.  [Explanation] and [Group] are the
    columns the frame may or may not have. *)
Record Row : Type := mkRow {
  Feature : string;
  Shapley_Value : Q;
  Explanation : option Q;
  Group : option string
}.

Definition row (f : string) (v : Q) : Row := mkRow f v None None.

(** A [pd.Series] indexed by feature name. *)
Abbreviation Series := (list (string * Q)).

(** A row of the long-form table given to the renderer: the columns
    ['Shapley Value'] (null for [None]), ['Feature'] and ['type']. *)
Record PlotRow : Type := mkPlotRow {
  p_Feature : string;
  p_Shapley_Value : option Q;
  p_type : string
}.

(** Values a caller may store in [plot_parameters]. *)
Inductive pyobj : Type :=
| PyNone
| PyInt (z : Z)
| PyFloat (q : Q)
| PyStr (s : string)
| PyList (l : list Q).

(** The heap of [dict] objects (display-name maps) and references into it. *)
Abbreviation loc := nat.
Abbreviation dict := (gmap string string).
Abbreviation heap := (gmap nat (gmap string string)).

Definition deref (h : heap) (l : loc) : dict := default ∅ (h !! l).

(** [if d:] for a dict. *)
Definition dict_truthy (d : dict) : bool := negb (bool_decide (d = ∅)).

(** [copy.deepcopy(d)]: a new object with the same entries. *)
Definition deepcopy (h : heap) (l : loc) : heap * loc :=
  let l' := fresh (dom h) in (<[l' := deref h l]> h, l').

(** [d[k] = v] on the object at [l]. *)
Definition setitem (h : heap) (l : loc) (k v : string) : heap :=
  <[l := <[k := v]> (deref h l)]> h.

(** [d[x]] *)
Definition getitem (d : dict) (x : string) : result string :=
  match d !! x with
  | Some y => Ok y
  | None => Raise (KeyError x)
  end.

(** ** pandas primitives *)

Definition Pruned_Events : string := "Pruned Events".
Definition overflow : string := "(...)".

(** [df.sort_values(col, ascending=False)] / [s.sort_values(ascending=False)]:
    the rows in descending order of the key.  pandas does not fix the
    order among rows of equal key; this sort keeps their input order, and
    the properties below use of it only that the result is a descending
    permutation of the input. *)
Fixpoint insert_desc {A} (key : A -> Q) (x : A) (l : list A) : list A :=
  match l with
  | [] => [x]
  | y :: l' =>
      if Qle_bool (key y) (key x) then x :: l
      else y :: insert_desc key x l'
  end.

Fixpoint sort_values_desc {A} (key : A -> Q) (l : list A) : list A :=
  match l with
  | [] => []
  | x :: l' => insert_desc key x (sort_values_desc key l')
  end.

(** [x.iloc[i]], with Python's negative indices. *)
Definition iloc {A} (l : list A) (i : Z) : result A :=
  let n := Z.of_nat (length l) in
  let j := if i <? 0 then n + i else i in
  if (0 <=? j) && (j <? n) then
    match nth_error l (Z.to_nat j) with
    | Some a => Ok a
    | None => Raise IndexError
    end
  else Raise IndexError.

(** The distinct values of a column in the order of their first rows. *)
Fixpoint first_seen (l : list string) : list string :=
  match l with
  | [] => []
  | x :: l' => x :: List.filter (fun y => negb (String.eqb y x)) (first_seen l')
  end.

(** The group keys of [groupby('Feature')]: the distinct features in
    ascending order. *)
Fixpoint insert_str (x : string) (l : list string) : list string :=
  match l with
  | [] => [x]
  | y :: l' => if String.leb x y then x :: l else y :: insert_str x l'
  end.

Definition group_keys (rows : list Row) : list string :=
  fold_right insert_str [] (first_seen (map Feature rows)).

Definition Qsum (l : list Q) : Q := fold_right Qplus 0%Q l.

(** The mean of a group, taken exactly: the rounding of the float sum
    and quotient is not modelled, and the properties below hold for the
    means whatever their values. *)
Definition mean (l : list Q) : Q :=
  Qred (Qsum l / inject_Z (Z.of_nat (length l))).

Definition values_of (f : string) (rows : list Row) : list Q :=
  map Shapley_Value (List.filter (fun r => String.eqb (Feature r) f) rows).

(** [feat_data.groupby('Feature').mean()['Shapley Value']] *)
Definition groupby_mean (rows : list Row) : Series :=
  map (fun f => (f, mean (values_of f rows))) (group_keys rows).

(** [x in s.index] *)
Definition isin (f : string) (s : Series) : bool :=
  existsb (String.eqb f) (map fst s).

(** Python truthiness of [threshold] ([None] and [0.0] are false). *)
Definition truthy (threshold : option Q) : bool :=
  match threshold with
  | Some t => negb (Qeq_bool t 0)
  | None => false
  end.

(** ** [plot_feat_barplot] *)

Record BarRow : Type := mkBarRow {
  b_row : Row;
  sort_col : Q
}.

(** The chart: the table given to [alt.Chart], the sort field of the Y
    axis with its order, the X domain and the panel size. *)
Record BarChart : Type := mkBarChart {
  bar_data : list BarRow;
  bar_sort : string * string;
  bar_domain : Q * Q;
  bar_width : Z;
  bar_height : Z
}.

(** [feat_data['Feature'] = feat_data['Feature'].apply(lambda x: d[x])] *)
Definition relabel_rows (d : dict) (rows : list Row) : result (list Row) :=
  map_result
    (fun r => f ← getitem d (Feature r);
              Ok (mkRow f (Shapley_Value r) (Explanation r) (Group r)))
    rows.

(** [feat_data['Explanation']] *)
Definition col_Explanation (rows : list BarRow) : result (list Q) :=
  map_result
    (fun r => match Explanation (b_row r) with
              | Some e => Ok e
              | None => Raise (KeyError "Explanation")
              end)
    rows.

(** [df[mask]] *)
Fixpoint select {A} (l : list A) (mask : list bool) : list A :=
  match l, mask with
  | a :: l', b :: mask' => if b then a :: select l' mask' else select l' mask'
  | _, _ => []
  end.

(** Lines 48-51: the cut to the most important features. *)
Definition cut_top (top_x_feats : option Z) (feat_data : list BarRow)
  : result (list BarRow) :=
  match top_x_feats with
  | Some top =>
      if top <? Z.of_nat (length feat_data) then
        let sorted_df := sort_values_desc sort_col feat_data in
        r ← iloc sorted_df 4;
        let cutoff_contribution := Qabs (Shapley_Value (b_row r)) in
        expl ← col_Explanation feat_data;
        Ok (select feat_data
              (map (fun e => Qle_bool cutoff_contribution e
                             || Qle_bool e (- cutoff_contribution)) expl))
      else Ok feat_data
  | None => Ok feat_data
  end.

Definition bar_chart (feat_data : list BarRow) : BarChart :=
  mkBarChart feat_data ("sort_col", "descending") (-0.1, 0.4)%Q 190 225.

(** The function: the caller's heap goes in, the heap after the call and
    the chart (or the exception) come out.  The two [print] calls write
    to standard output only and are left out. *)
Definition plot_feat_barplot (feat_data : list Row) (top_x_feats : option Z)
    (plot_features : option loc) (h : heap) : heap * result BarChart :=
  let '(h, relabelled) :=
    match plot_features with
    | Some l =>
        if dict_truthy (deref h l) then
          let h := setitem h l Pruned_Events Pruned_Events in
          (h, relabel_rows (deref h l) feat_data)
        else (h, Ok feat_data)
    | None => (h, Ok feat_data)
    end in
  (h,
   feat_data ← relabelled;
   let feat_data :=
     map (fun r => mkBarRow r (Qabs (Shapley_Value r))) feat_data in
   feat_data ← cut_top top_x_feats feat_data;
   Ok (bar_chart feat_data)).

(** ** [plot_global_feat] *)

Definition type_Shapley_Value : string := "Shapley Value".
Definition type_Mean : string := "Mean".

Record PointChart : Type := mkPointChart {
  data : list PlotRow;
  y_sort : list string;
  x_domain : pyobj;
  labelFontSize : pyobj;
  width : pyobj;
  height : pyobj
}.

(** Lines 104-106: the threshold in force after the top-x rule. *)
Definition compute_threshold (avg_df : Series) (top_x_feats : Z)
    (threshold : option Q) : result (option Q) :=
  match threshold with
  | None =>
      if top_x_feats <=? Z.of_nat (length avg_df) then
        let sorted_series :=
          sort_values_desc snd (map (fun e => (fst e, Qabs (snd e))) avg_df) in
        e ← iloc sorted_series (top_x_feats - 1);
        Ok (Some (snd e))
      else Ok None
  | Some t => Ok (Some t)
  end.

(** Lines 107-108: the features kept. *)
Definition keep_features (avg_df : Series) (threshold : option Q) : Series :=
  match threshold with
  | Some t =>
      if truthy threshold then
        List.filter (fun e => Qle_bool (snd e) (- t) || Qle_bool t (snd e)) avg_df
      else avg_df
  | None => avg_df
  end.

(** Line 109: the raw records of the kept features, cut to the columns
    ['Shapley Value'] and ['Feature']. *)
Definition keep_rows (feat_data : list Row) (avg_df : Series)
  : list (string * option Q) :=
  map (fun r => (Feature r, Some (Shapley_Value r)))
      (List.filter (fun r => isin (Feature r) avg_df) feat_data).

(** Lines 111-117: the overflow feature. *)
Definition add_overflow (threshold : option Q)
    (avg_df : Series) (feat_data : list (string * option Q))
  : Series * list (string * option Q) :=
  if truthy threshold then
    (avg_df ++ [(overflow, 0%Q)], feat_data ++ [(overflow, Some (-0.6)%Q)])
  else (avg_df, feat_data).

(** Lines 121-139: one ['Mean'] row per entry of [avg_df]. *)
Definition mean_row (index : string) (value : Q) : PlotRow :=
  if String.eqb index overflow then mkPlotRow index None type_Mean
  else mkPlotRow index (Some value) type_Mean.

Definition add_means (avg_df : Series) (feat_data : list PlotRow)
  : list PlotRow :=
  fold_left (fun fd e => fd ++ [mean_row (fst e) (snd e)]) avg_df feat_data.

(** Lines 103-141: the long-form table and the order of the features. *)
Definition long_form (feat_data : list Row) (top_x_feats : Z)
    (threshold : option Q) : result (list PlotRow * list string) :=
  let avg_df := groupby_mean feat_data in
  threshold ← compute_threshold avg_df top_x_feats threshold;
  let avg_df := keep_features avg_df threshold in
  let feat_data := keep_rows feat_data avg_df in
  let '(avg_df, feat_data) := add_overflow threshold avg_df feat_data in
  let feat_data :=
    map (fun r => mkPlotRow (fst r) (snd r) type_Shapley_Value) feat_data in
  let feat_data := add_means avg_df feat_data in
  let sort_features := map fst (sort_values_desc snd avg_df) in
  Ok (feat_data, sort_features).

(** Lines 142-147 on a copy [d] of the display-name map. *)
Definition relabel (d : dict) (feat_data : list PlotRow)
    (sort_features : list string) : result (list PlotRow * list string) :=
  feat_data ← map_result
    (fun r => f ← getitem d (p_Feature r);
              Ok (mkPlotRow f (p_Shapley_Value r) (p_type r)))
    feat_data;
  sort_features ← map_result (getitem d) sort_features;
  Ok (feat_data, sort_features).

(** [plot_parameters.get(key, default)] *)
Definition get (plot_parameters : gmap string pyobj) (key : string)
    (default : pyobj) : pyobj :=
  match plot_parameters !! key with
  | Some v => v
  | None => default
  end.

(** Lines 149-177: the plot parameters and the chart. *)
Definition point_chart (plot_parameters : option (gmap string pyobj))
    (feat_data : list PlotRow) (sort_features : list string) : PointChart :=
  let plot_parameters :=
    match plot_parameters with
    | Some p => p
    | None => ∅
    end in
  let height := get plot_parameters "height" (PyInt 280) in
  let width := get plot_parameters "width" (PyInt 288) in
  let axis_lims := get plot_parameters "axis_lim" (PyList [-0.2; 0.6]%Q) in
  let fontsize := get plot_parameters "FontSize" (PyInt 13) in
  mkPointChart feat_data sort_features axis_lims fontsize width height.

(** The inner function [plot], called once per plot group. *)
Definition plot (feat_data : list Row) (top_x_feats : Z)
    (threshold : option Q) (plot_features : option loc)
    (plot_parameters : option (gmap string pyobj)) (h : heap)
  : heap * result PointChart :=
  match long_form feat_data top_x_feats threshold with
  | Raise e => (h, Raise e)
  | Ok (feat_data, sort_features) =>
      let '(h, relabelled) :=
        match plot_features with
        | Some l =>
            if dict_truthy (deref h l) then
              let '(h, l) := deepcopy h l in
              let h := setitem h l Pruned_Events Pruned_Events in
              let h := setitem h l overflow overflow in
              (h, relabel (deref h l) feat_data sort_features)
            else (h, Ok (feat_data, sort_features))
        | None => (h, Ok (feat_data, sort_features))
        end in
      (h,
       r ← relabelled;
       Ok (point_chart plot_parameters (fst r) (snd r)))
  end.

(** ** The dispatcher over plot groups *)

Section Dispatch.

(** [multi_plot_wrapper] of [timeshap.plot.utils] is imported by the
    module and not part of it: [plot_global_feat] is embedded over any
    dispatcher, which receives the table, the plotting function of one
    plot group and the heap, and returns its composition of charts. *)
Context {Charts : Type}.
Variable multi_plot_wrapper :
  list Row -> (list Row -> heap -> heap * result PointChart) -> heap ->
  heap * result Charts.

(** [plot_global_feat]; the extra keyword arguments are not read. *)
Definition plot_global_feat (feat_data : list Row) (top_x_feats : Z)
    (threshold : option Q) (plot_features : option loc)
    (plot_parameters : option (gmap string pyobj)) (h : heap)
  : heap * result Charts :=
  multi_plot_wrapper feat_data
    (fun feat_data =>
       plot feat_data top_x_feats threshold plot_features plot_parameters)
    h.

End Dispatch.

(** ** Vocabulary of the properties *)

Definition raises {A} (r : result A) : Prop := exists e, r = Raise e.

(** [a] may stand before [b] in a descending order by [key]. *)
Definition desc {A} (key : A -> Q) (a b : A) : Prop := (key b <= key a)%Q.

Definition Qlt_bool (x y : Q) : bool := negb (Qle_bool y x).

Definition count (p : Q -> bool) (l : list Q) : Z :=
  Z.of_nat (length (List.filter p l)).

(** [t] is the [k]-th largest value of [xs], counted from 1 and with
    repetitions: it occurs in [xs], fewer than [k] values are above it and
    at least [k] values are not below it. *)
Definition kth_largest (k : Z) (xs : list Q) (t : Q) : Prop :=
  In t xs /\
  count (Qlt_bool t) xs < k <= count (Qle_bool t) xs.

Definition raw_row (r : Row) : PlotRow :=
  mkPlotRow (Feature r) (Some (Shapley_Value r)) type_Shapley_Value.

Definition overflow_raw : PlotRow :=
  mkPlotRow overflow (Some (-0.6)%Q) type_Shapley_Value.

Definition overflow_mean : PlotRow := mkPlotRow overflow None type_Mean.

Definition is_overflow (p : PlotRow) : bool := String.eqb (p_Feature p) overflow.

Definition is_row (f ty : string) (p : PlotRow) : bool :=
  String.eqb (p_Feature p) f && String.eqb (p_type p) ty.

(** The index of the series of means the ['Mean'] rows are made from. *)
Definition mean_keys (feat_data : list Row) (t : option Q) : list string :=
  map fst (keep_features (groupby_mean feat_data) t)
  ++ (if truthy t then [overflow] else []).

(** The map the global plot looks labels up in. *)
Definition display_map (h : heap) (plot_features : option loc) : option dict :=
  match plot_features with
  | Some l =>
      if dict_truthy (deref h l) then
        Some (<[overflow := overflow]>
                (<[Pruned_Events := Pruned_Events]> (deref h l)))
      else None
  | None => None
  end.

(** The map [plot_feat_barplot] looks labels up in. *)
Definition barplot_map (h : heap) (plot_features : option loc) : option dict :=
  match plot_features with
  | Some l =>
      if dict_truthy (deref h l) then
        Some (<[Pruned_Events := Pruned_Events]> (deref h l))
      else None
  | None => None
  end.

(** The label a feature is shown under. *)
Definition label_of (m : option dict) (x : string) : string :=
  match m with
  | Some d => default x (d !! x)
  | None => x
  end.

Definition relabel_row (m : option dict) (p : PlotRow) : PlotRow :=
  mkPlotRow (label_of m (p_Feature p)) (p_Shapley_Value p) (p_type p).

Definition with_sort_col (feat_data : list Row) : list BarRow :=
  map (fun r => mkBarRow r (Qabs (Shapley_Value r))) feat_data.

(** The table of the specification's example: one record per feature,
    with the means A: 0.5, B: -0.4, C: 0.1, D: 0.05. *)
Definition global_example : list Row :=
  [row "A" 0.5; row "B" (-0.4); row "C" 0.1; row "D" 0.05]%Q.

(** A table whose second largest absolute mean is 0. *)
Definition zero_example : list Row := [row "A" 0.5; row "B" 0]%Q.

(** Six attributions with the columns 'Feature' and 'Shapley Value'. *)
Definition local_example : list Row :=
  [row "a" 0.30; row "b" (-0.25); row "c" 0.20; row "d" (-0.15);
   row "e" 0.10; row "f" 0.05]%Q.

(** A row of the attribution table under its display label. *)
Definition relabel_Row (m : option dict) (r : Row) : Row :=
  mkRow (label_of m (Feature r)) (Shapley_Value r) (Explanation r) (Group r).

(** Every feature of the table has an entry in the map in use. *)
Definition labelled (m : option dict) (feat_data : list Row) : Prop :=
  forall d, m = Some d ->
    forall r, In r feat_data -> is_Some (d !! Feature r).

(** The test of line 51 on one record. *)
Definition beyond_cutoff (cutoff : Q) (b : BarRow) : bool :=
  match Explanation (b_row b) with
  | Some e => Qle_bool cutoff e || Qle_bool e (- cutoff)
  | None => false
  end.

Definition is_Mean (p : PlotRow) : bool := String.eqb (p_type p) type_Mean.

(** * Properties *)

(** ** The error monad *)

Lemma map_result_Ok {A B} (f : A -> result B) (g : A -> B) (l : list A) :
  (forall a, In a l -> f a = Ok (g a)) -> map_result f l = Ok (map g l).
Proof.
  induction l as [|a l IH]; intros Hf; simpl; [reflexivity|].
  rewrite (Hf a) by (left; reflexivity). simpl.
  rewrite IH by (intros b Hb; apply Hf; right; exact Hb).
  reflexivity.
Qed.

Lemma map_result_Raise {A B} (f : A -> result B) (l : list A) (e : exn) :
  map_result f l = Raise e -> exists a, In a l /\ f a = Raise e.
Proof.
  induction l as [|a l IH]; simpl; [discriminate|].
  destruct (f a) as [b|e'] eqn:Ha; simpl.
  - destruct (map_result f l) as [bs|e'']; simpl; [discriminate|].
    intros [= ->]. destruct (IH eq_refl) as (a' & Hin & Ha').
    exists a'. split; [right; exact Hin | exact Ha'].
  - intros [= ->]. exists a. split; [left; reflexivity | exact Ha].
Qed.

Lemma map_result_raises {A B} (f : A -> result B) (l : list A) :
  raises (map_result f l) <-> exists a, In a l /\ raises (f a).
Proof.
  split.
  - intros [e He]. apply map_result_Raise in He as (a & Hin & Ha).
    exists a. split; [exact Hin | exists e; exact Ha].
  - induction l as [|a l IH]; intros (a' & Hin & Ha'); [destruct Hin|].
    simpl. destruct (f a) as [b|e] eqn:Ha; simpl.
    + destruct Hin as [-> | Hin].
      * destruct Ha' as [e He]. congruence.
      * destruct IH as [e He]; [exists a'; split; assumption|].
        rewrite He. exists e. reflexivity.
    + exists e. reflexivity.
Qed.

(** ** Sorting *)

Section Sorting.
Context {A : Type} (key : A -> Q).

Lemma insert_desc_perm (x : A) (l : list A) :
  Permutation (insert_desc key x l) (x :: l).
Proof.
  induction l as [|y l IH]; simpl; [reflexivity|].
  destruct (Qle_bool (key y) (key x)); [reflexivity|].
  rewrite IH. apply perm_swap.
Qed.

Lemma sort_values_desc_perm (l : list A) :
  Permutation (sort_values_desc key l) l.
Proof.
  induction l as [|x l IH]; simpl; [reflexivity|].
  rewrite insert_desc_perm. apply perm_skip, IH.
Qed.

Lemma insert_desc_sorted (x : A) (l : list A) :
  StronglySorted (desc key) l -> StronglySorted (desc key) (insert_desc key x l).
Proof.
  induction l as [|y l IH]; intros Hs; simpl.
  - constructor; constructor.
  - inversion Hs as [|? ? Hs' Hall]; subst.
    destruct (Qle_bool (key y) (key x)) eqn:Hle.
    + apply Qle_bool_iff in Hle.
      constructor; [exact Hs|].
      constructor; [exact Hle|].
      eapply List.Forall_impl; [|exact Hall].
      intros z Hz. unfold desc in *. eapply Qle_trans; eassumption.
    + assert (Hlt : (key x < key y)%Q).
      { apply Qnot_le_lt. intros H. apply Qle_bool_iff in H. congruence. }
      constructor; [apply IH; exact Hs'|].
      eapply Permutation_Forall;
        [symmetry; apply insert_desc_perm|].
      constructor; [apply Qlt_le_weak; exact Hlt | exact Hall].
Qed.

Lemma sort_values_desc_sorted (l : list A) :
  StronglySorted (desc key) (sort_values_desc key l).
Proof.
  induction l as [|x l IH]; simpl; [constructor|].
  apply insert_desc_sorted, IH.
Qed.

Lemma sort_values_desc_length (l : list A) :
  length (sort_values_desc key l) = length l.
Proof. apply Permutation_length, sort_values_desc_perm. Qed.
End Sorting.

(** ** Order statistics *)

Lemma filter_length_perm {A} (p : A -> bool) (l l' : list A) :
  Permutation l l' ->
  length (List.filter p l) = length (List.filter p l').
Proof.
  induction 1 as [|x l l' _ IH|x y l|l l' l'' _ IH1 _ IH2]; simpl.
  - reflexivity.
  - destruct (p x); simpl; congruence.
  - destruct (p x), (p y); reflexivity.
  - congruence.
Qed.

Lemma filter_length_le {A} (p : A -> bool) (l : list A) :
  (length (List.filter p l) <= length l)%nat.
Proof.
  induction l as [|a l IH]; simpl; [lia|]. destruct (p a); simpl; lia.
Qed.

Lemma filter_all {A} (p : A -> bool) (l : list A) :
  (forall a, In a l -> p a = true) -> List.filter p l = l.
Proof.
  induction l as [|a l IH]; intros H; simpl; [reflexivity|].
  rewrite (H a) by (left; reflexivity). f_equal.
  apply IH. intros b Hb. apply H. right. exact Hb.
Qed.

Lemma filter_none {A} (p : A -> bool) (l : list A) :
  (forall a, In a l -> p a = false) -> List.filter p l = [].
Proof.
  induction l as [|a l IH]; intros H; simpl; [reflexivity|].
  rewrite (H a) by (left; reflexivity).
  apply IH. intros b Hb. apply H. right. exact Hb.
Qed.

Section Rank.
Context {A : Type} (key : A -> Q).

(** The element at a position of a descending list splits it into the
    keys not below and the keys not above its own. *)
Lemma sorted_split (s : list A) (i : nat) (e : A) :
  StronglySorted (desc key) s ->
  nth_error s i = Some e ->
  exists l1 l2,
    s = l1 ++ e :: l2 /\ length l1 = i /\
    List.Forall (fun a => (key e <= key a)%Q) l1 /\
    List.Forall (fun a => (key a <= key e)%Q) l2.
Proof.
  intros Hs. revert i. induction Hs as [|x s Hs IH Hall]; intros i Hi.
  - destruct i; discriminate.
  - destruct i as [|i]; simpl in Hi.
    + injection Hi as ->. exists [], s. repeat split; [constructor | exact Hall].
    + destruct (IH i Hi) as (l1 & l2 & -> & Hlen & H1 & H2).
      exists (x :: l1), l2. repeat split; simpl; [congruence| |exact H2].
      constructor; [|exact H1].
      rewrite List.Forall_forall in Hall. apply Hall.
      apply in_or_app. right. left. reflexivity.
Qed.

Lemma rank_in_sorted (s : list A) (i : nat) (e : A) :
  StronglySorted (desc key) s ->
  nth_error s i = Some e ->
  count (Qlt_bool (key e)) (map key s) <= Z.of_nat i /\
  Z.of_nat i + 1 <= count (Qle_bool (key e)) (map key s).
Proof.
  intros Hs Hi.
  destruct (sorted_split s i e Hs Hi) as (l1 & l2 & -> & Hlen & H1 & H2).
  unfold count. rewrite map_app. simpl map. rewrite !List.filter_app.
  simpl List.filter.
  assert (Hrefl : Qle_bool (key e) (key e) = true)
    by (apply Qle_bool_iff, Qle_refl).
  unfold Qlt_bool at 2. rewrite Hrefl. simpl negb. cbv iota.
  rewrite !length_app. simpl length.
  rewrite (filter_none (Qlt_bool (key e)) (map key l2)).
  2:{ intros q Hq. apply in_map_iff in Hq as (a & <- & Ha).
      rewrite List.Forall_forall in H2. unfold Qlt_bool.
      apply negb_false_iff, Qle_bool_iff, H2, Ha. }
  rewrite (filter_all (Qle_bool (key e)) (map key l1)).
  2:{ intros q Hq. apply in_map_iff in Hq as (a & <- & Ha).
      rewrite List.Forall_forall in H1. apply Qle_bool_iff, H1, Ha. }
  pose proof (filter_length_le (Qlt_bool (key e)) (map key l1)) as Hle.
  rewrite length_map in *. simpl length. lia.
Qed.
End Rank.

Lemma iloc_nth {A} (l : list A) (i : Z) :
  0 <= i < Z.of_nat (length l) ->
  exists a, nth_error l (Z.to_nat i) = Some a /\ iloc l i = Ok a.
Proof.
  intros Hi. unfold iloc.
  destruct (i <? 0) eqn:Hneg; [apply Z.ltb_lt in Hneg; lia|].
  replace ((0 <=? i) && (i <? Z.of_nat (length l))) with true
    by (symmetry; apply andb_true_iff; split;
        [apply Z.leb_le | apply Z.ltb_lt]; lia).
  destruct (nth_error l (Z.to_nat i)) as [a|] eqn:Hn.
  - exists a. split; reflexivity.
  - apply nth_error_None in Hn. lia.
Qed.

Lemma iloc_out_of_range {A} (l : list A) (i : Z) :
  i < - Z.of_nat (length l) \/ Z.of_nat (length l) <= i ->
  iloc l i = Raise IndexError.
Proof.
  intros Hi. unfold iloc.
  destruct (i <? 0) eqn:Hneg.
  - apply Z.ltb_lt in Hneg.
    replace (0 <=? Z.of_nat (length l) + i) with false
      by (symmetry; apply Z.leb_gt; lia).
    reflexivity.
  - apply Z.ltb_ge in Hneg.
    replace (i <? Z.of_nat (length l)) with false
      by (symmetry; apply Z.ltb_ge; lia).
    rewrite andb_false_r. reflexivity.
Qed.

(** ** Grouping by feature *)

Lemma first_seen_In (x : string) (l : list string) :
  In x (first_seen l) <-> In x l.
Proof.
  induction l as [|y l IH]; simpl; [tauto|].
  rewrite List.filter_In, IH, negb_true_iff, String.eqb_neq.
  destruct (String.eqb_spec x y) as [->|Hne]; [tauto|].
  split; [intros [H|[H _]]; auto | intros [H|H]; auto].
Qed.

Lemma NoDup_List_filter {A} (p : A -> bool) (l : list A) :
  List.NoDup l -> List.NoDup (List.filter p l).
Proof.
  induction 1 as [|a l Hnin _ IH]; simpl; [constructor|].
  destruct (p a); [|exact IH].
  constructor; [|exact IH].
  intros Hin. apply List.filter_In in Hin. tauto.
Qed.

Lemma first_seen_NoDup (l : list string) : List.NoDup (first_seen l).
Proof.
  induction l as [|y l IH]; simpl; constructor.
  - intros Hin. apply List.filter_In in Hin as [_ Hne].
    rewrite String.eqb_refl in Hne. discriminate.
  - apply NoDup_List_filter, IH.
Qed.

Lemma insert_str_perm (x : string) (l : list string) :
  Permutation (insert_str x l) (x :: l).
Proof.
  induction l as [|y l IH]; simpl; [reflexivity|].
  destruct (String.leb x y); [reflexivity|].
  rewrite IH. apply perm_swap.
Qed.

Lemma group_keys_perm (rows : list Row) :
  Permutation (group_keys rows) (first_seen (map Feature rows)).
Proof.
  unfold group_keys. induction (first_seen (map Feature rows)) as [|x l IH];
    simpl; [reflexivity|].
  rewrite insert_str_perm. apply perm_skip, IH.
Qed.

Lemma group_keys_In (f : string) (rows : list Row) :
  In f (group_keys rows) <-> exists r, In r rows /\ Feature r = f.
Proof.
  transitivity (In f (map Feature rows)).
  - rewrite <- (first_seen_In f (map Feature rows)).
    split; apply Permutation_in; [|symmetry]; apply group_keys_perm.
  - rewrite in_map_iff. split; intros (r & H1 & H2); exists r; tauto.
Qed.

Lemma group_keys_NoDup (rows : list Row) : List.NoDup (group_keys rows).
Proof.
  eapply Permutation_NoDup; [symmetry; apply group_keys_perm|].
  apply first_seen_NoDup.
Qed.

Lemma groupby_mean_index (rows : list Row) :
  map fst (groupby_mean rows) = group_keys rows.
Proof.
  unfold groupby_mean. rewrite map_map. simpl. apply map_id.
Qed.

Lemma groupby_mean_In (f : string) (m : Q) (rows : list Row) :
  In (f, m) (groupby_mean rows) <->
  In f (group_keys rows) /\ m = mean (values_of f rows).
Proof.
  unfold groupby_mean. rewrite in_map_iff. split.
  - intros (g & [= <- <-] & Hg). split; [exact Hg | reflexivity].
  - intros [Hf ->]. exists f. split; [reflexivity | exact Hf].
Qed.

Lemma isin_In (f : string) (s : Series) :
  isin f s = true <-> In f (map fst s).
Proof.
  unfold isin. rewrite existsb_exists. split.
  - intros (g & Hg & Heq). apply String.eqb_eq in Heq. subst g. exact Hg.
  - intros Hf. exists f. split; [exact Hf | apply String.eqb_refl].
Qed.

Lemma isin_groupby_mean (r : Row) (rows : list Row) :
  In r rows -> isin (Feature r) (groupby_mean rows) = true.
Proof.
  intros Hr. apply isin_In. rewrite groupby_mean_index.
  apply group_keys_In. exists r. split; [exact Hr | reflexivity].
Qed.

Lemma keep_features_In (e : string * Q) (avg_df : Series) (t : option Q) :
  In e (keep_features avg_df t) -> In e avg_df.
Proof.
  unfold keep_features. destruct t as [t|]; [|tauto].
  destruct (truthy (Some t)); [|tauto].
  intros H. apply List.filter_In in H. tauto.
Qed.

Lemma NoDup_map_filter {A B} (g : A -> B) (p : A -> bool) (l : list A) :
  List.NoDup (map g l) -> List.NoDup (map g (List.filter p l)).
Proof.
  induction l as [|a l IH]; simpl; intros Hnd; [constructor|].
  inversion Hnd as [|? ? Hnin Hnd']; subst.
  destruct (p a); simpl; [|apply IH, Hnd'].
  constructor; [|apply IH, Hnd'].
  intros Hin. apply Hnin. apply in_map_iff in Hin as (b & Hb & Hin).
  apply in_map_iff. exists b. split; [exact Hb|].
  apply List.filter_In in Hin. tauto.
Qed.

Lemma keep_features_NoDup (rows : list Row) (t : option Q) :
  List.NoDup (map fst (keep_features (groupby_mean rows) t)).
Proof.
  assert (H : List.NoDup (map fst (groupby_mean rows)))
    by (rewrite groupby_mean_index; apply group_keys_NoDup).
  unfold keep_features. destruct t as [t|]; [|exact H].
  destruct (truthy (Some t)); [|exact H].
  apply NoDup_map_filter, H.
Qed.

(** The loop of lines 121-139 appends the ['Mean'] rows in the order of
    the series. *)
Lemma add_means_app (avg_df : Series) (feat_data : list PlotRow) :
  add_means avg_df feat_data =
  feat_data ++ map (fun e => mean_row (fst e) (snd e)) avg_df.
Proof.
  unfold add_means. revert feat_data.
  induction avg_df as [|e avg_df IH]; intros feat_data; simpl.
  - symmetry. apply app_nil_r.
  - rewrite IH, <- app_assoc. reflexivity.
Qed.

(** ** The threshold of [plot_global_feat] *)

Lemma keep_features_spec (avg_df : Series) (t : Q) (e : string * Q) :
  In e (keep_features avg_df (Some t)) <->
  In e avg_df /\ ~ (- t < snd e /\ snd e < t)%Q.
Proof.
  unfold keep_features, truthy.
  destruct (Qeq_bool t 0) eqn:Hz; simpl.
  - apply Qeq_bool_iff in Hz. split; [|tauto].
    intros He. split; [exact He|]. lra.
  - rewrite List.filter_In, orb_true_iff, !Qle_bool_iff.
    split; intros [He Hc]; (split; [exact He|]); [lra|].
    destruct (Qlt_le_dec (- t) (snd e)); [|left; assumption].
    destruct (Qlt_le_dec (snd e) t); [tauto | right; assumption].
Qed.

Lemma compute_threshold_rank (avg_df : Series) (top_x_feats : Z) :
  1 <= top_x_feats <= Z.of_nat (length avg_df) ->
  exists t,
    compute_threshold avg_df top_x_feats None = Ok (Some t) /\
    kth_largest top_x_feats (map (fun e => Qabs (snd e)) avg_df) t.
Proof.
  intros Htop. unfold compute_threshold.
  replace (top_x_feats <=? Z.of_nat (length avg_df)) with true
    by (symmetry; apply Z.leb_le; lia).
  set (abs_df := map (fun e : string * Q => (fst e, Qabs (snd e))) avg_df).
  assert (Hmap : map snd abs_df = map (fun e => Qabs (snd e)) avg_df)
    by (unfold abs_df; rewrite map_map; reflexivity).
  pose proof (sort_values_desc_perm snd abs_df) as Hperm.
  pose proof (sort_values_desc_sorted snd abs_df) as Hsorted.
  destruct (iloc_nth (sort_values_desc snd abs_df) (top_x_feats - 1))
    as (e & Hnth & Hiloc).
  { rewrite sort_values_desc_length. unfold abs_df. rewrite length_map. lia. }
  rewrite Hiloc. simpl. exists (snd e). split; [reflexivity|].
  destruct (rank_in_sorted snd _ _ e Hsorted Hnth) as [Hgt Hge].
  unfold count in *.
  rewrite (filter_length_perm _ _ _ (Permutation_map snd Hperm)), Hmap in Hgt.
  rewrite (filter_length_perm _ _ _ (Permutation_map snd Hperm)), Hmap in Hge.
  split; [|unfold count; lia].
  rewrite <- Hmap. apply in_map.
  eapply Permutation_in; [exact Hperm|].
  eapply nth_error_In, Hnth.
Qed.

(** With [top_x_feats = 2] the threshold of the example is 0.4, and C
    and D are dropped. *)
Example global_example_threshold :
  compute_threshold (groupby_mean global_example) 2 None = Ok (Some (2 # 5)%Q) /\
  (2 # 5 == 0.4)%Q /\
  map fst (keep_features (groupby_mean global_example) (Some (2 # 5)%Q))
  = ["A"; "B"] /\
  keep_rows global_example
    (keep_features (groupby_mean global_example) (Some (2 # 5)%Q))
  = [("A", Some 0.5%Q); ("B", Some (-0.4)%Q)].
Proof. repeat split. Qed.

(** ** The long-form table *)

(** The table and the feature order in terms of the threshold in force. *)
Lemma long_form_eq (feat_data : list Row) (top_x_feats : Z)
    (threshold t : option Q) :
  compute_threshold (groupby_mean feat_data) top_x_feats threshold = Ok t ->
  long_form feat_data top_x_feats threshold =
  Ok (map raw_row
        (List.filter
           (fun r => isin (Feature r) (keep_features (groupby_mean feat_data) t))
           feat_data)
      ++ (if truthy t then [overflow_raw] else [])
      ++ map (fun e => mean_row (fst e) (snd e))
           (keep_features (groupby_mean feat_data) t)
      ++ (if truthy t then [overflow_mean] else []),
      map fst
        (sort_values_desc snd
           (keep_features (groupby_mean feat_data) t
            ++ (if truthy t then [(overflow, 0%Q)] else [])))).
Proof.
  intros Ht. unfold long_form. rewrite Ht. simpl.
  unfold add_overflow, keep_rows.
  destruct (truthy t); rewrite add_means_app.
  - rewrite !map_app, !map_map, <- !app_assoc. reflexivity.
  - rewrite !map_map, !app_nil_r. reflexivity.
Qed.

Lemma mean_row_Feature (index : string) (value : Q) :
  p_Feature (mean_row index value) = index.
Proof. unfold mean_row. destruct (String.eqb index overflow); reflexivity. Qed.

Lemma mean_row_type (index : string) (value : Q) :
  p_type (mean_row index value) = type_Mean.
Proof. unfold mean_row. destruct (String.eqb index overflow); reflexivity. Qed.

Lemma keep_features_input (feat_data : list Row) (t : option Q) (f : string) :
  In f (map fst (keep_features (groupby_mean feat_data) t)) ->
  exists r, In r feat_data /\ Feature r = f.
Proof.
  intros Hf. apply in_map_iff in Hf as (e & <- & He).
  apply keep_features_In in He. apply group_keys_In.
  rewrite <- groupby_mean_index. apply in_map, He.
Qed.

(** C10: a threshold of 0.0, supplied or computed, acts as no threshold:
    every record and every feature mean is in the table, the overflow
    rows are not, and the overflow feature is not in the feature order. *)
Theorem zero_threshold_inactive (feat_data : list Row) (top_x_feats : Z)
    (threshold : option Q) (t : Q) :
  compute_threshold (groupby_mean feat_data) top_x_feats threshold
  = Ok (Some t) ->
  (t == 0)%Q ->
  keep_features (groupby_mean feat_data) (Some t) = groupby_mean feat_data /\
  long_form feat_data top_x_feats threshold =
  Ok (map raw_row feat_data
      ++ map (fun e => mean_row (fst e) (snd e)) (groupby_mean feat_data),
      map fst (sort_values_desc snd (groupby_mean feat_data))).
Proof.
  intros Ht Hz. apply Qeq_bool_iff in Hz.
  assert (Hkeep : keep_features (groupby_mean feat_data) (Some t)
                  = groupby_mean feat_data)
    by (unfold keep_features, truthy; rewrite Hz; reflexivity).
  split; [exact Hkeep|].
  rewrite (long_form_eq _ _ _ _ Ht), Hkeep.
  unfold truthy. rewrite Hz. simpl. rewrite !app_nil_r.
  rewrite filter_all; [reflexivity|].
  intros r Hr. apply isin_groupby_mean, Hr.
Qed.

Lemma zero_threshold_inactive_witness :
  compute_threshold (groupby_mean zero_example) 2 None = Ok (Some 0%Q) /\
  long_form zero_example 2 None =
  Ok (map raw_row zero_example
      ++ map (fun e => mean_row (fst e) (snd e)) (groupby_mean zero_example),
      map fst (sort_values_desc snd (groupby_mean zero_example))).
Proof.
  split; [reflexivity|].
  apply (zero_threshold_inactive zero_example 2 None 0%Q);
    [reflexivity | reflexivity].
Defined.

(** ** The display-name map *)

Lemma deref_insert (h : heap) (l : loc) (d : dict) :
  deref (<[l := d]> h) l = d.
Proof. unfold deref. rewrite lookup_insert_eq. reflexivity. Qed.

Lemma deref_setitem (h : heap) (l : loc) (k v : string) :
  deref (setitem h l k v) l = <[k := v]> (deref h l).
Proof. unfold setitem. apply deref_insert. Qed.

Lemma setitem_other (h : heap) (l l' : loc) (k v : string) :
  l <> l' -> setitem h l k v !! l' = h !! l'.
Proof. intros Hne. unfold setitem. apply lookup_insert_ne, Hne. Qed.

Lemma plot_result (feat_data : list Row) (top_x_feats : Z)
    (threshold : option Q) (plot_features : option loc)
    (plot_parameters : option (gmap string pyobj)) (h : heap) :
  snd (plot feat_data top_x_feats threshold plot_features plot_parameters h) =
  (lf ← long_form feat_data top_x_feats threshold;
   r ← match display_map h plot_features with
       | Some d => relabel d (fst lf) (snd lf)
       | None => Ok lf
       end;
   Ok (point_chart plot_parameters (fst r) (snd r))).
Proof.
  unfold plot, display_map.
  destruct (long_form feat_data top_x_feats threshold) as [[tbl order]|e];
    simpl; [|reflexivity].
  destruct plot_features as [l|]; simpl; [|reflexivity].
  destruct (dict_truthy (deref h l)); simpl; [|reflexivity].
  rewrite !deref_setitem, deref_insert. reflexivity.
Qed.

(** [plot] works on a copy of the display-name map: every dict object of
    the caller's heap is as it was. *)
Lemma plot_heap (feat_data : list Row) (top_x_feats : Z)
    (threshold : option Q) (plot_features : option loc)
    (plot_parameters : option (gmap string pyobj)) (h : heap)
    (l : loc) (d : dict) :
  h !! l = Some d ->
  fst (plot feat_data top_x_feats threshold plot_features plot_parameters h)
    !! l = Some d.
Proof.
  intros Hl. unfold plot.
  destruct (long_form feat_data top_x_feats threshold) as [[tbl order]|e];
    simpl; [|exact Hl].
  destruct plot_features as [l0|]; simpl; [|exact Hl].
  destruct (dict_truthy (deref h l0)); simpl; [|exact Hl].
  assert (Hne : fresh (dom h) <> l).
  { intros Heq. apply (is_fresh (dom h)). rewrite Heq.
    apply elem_of_dom. exists d. exact Hl. }
  rewrite !setitem_other by exact Hne.
  rewrite lookup_insert_ne by exact Hne. exact Hl.
Qed.

Section Dispatch_heap.

Context {Charts : Type}.
Variable multi_plot_wrapper :
  list Row -> (list Row -> heap -> heap * result PointChart) -> heap ->
  heap * result Charts.

(** The dispatcher reaches the heap through the calls of the plotting
    function only. *)
Hypothesis multi_plot_wrapper_heap :
  forall (P : heap -> Prop) method,
    (forall g h, P h -> P (fst (method g h))) ->
    forall data h, P h -> P (fst (multi_plot_wrapper data method h)).

(** The same for [plot_global_feat], over all its plot groups. *)
Lemma plot_global_feat_heap (feat_data : list Row) (top_x_feats : Z)
    (threshold : option Q) (plot_features : option loc)
    (plot_parameters : option (gmap string pyobj)) (h : heap)
    (l : loc) (d : dict) :
  h !! l = Some d ->
  fst (plot_global_feat multi_plot_wrapper feat_data top_x_feats threshold
         plot_features plot_parameters h) !! l = Some d.
Proof.
  intros Hl. unfold plot_global_feat.
  apply (multi_plot_wrapper_heap (fun h0 => h0 !! l = Some d)); [|exact Hl].
  intros g h0 H0. apply plot_heap, H0.
Qed.

End Dispatch_heap.

(** What [plot_feat_barplot] leaves in the heap. *)
Lemma plot_feat_barplot_heap (feat_data : list Row) (top_x_feats : option Z)
    (l : loc) (h : heap) :
  fst (plot_feat_barplot feat_data top_x_feats (Some l) h) =
  if dict_truthy (deref h l) then setitem h l Pruned_Events Pruned_Events
  else h.
Proof.
  unfold plot_feat_barplot. destruct (dict_truthy (deref h l)); reflexivity.
Qed.

(** C5: [plot_feat_barplot] writes the "Pruned Events" entry into the
    caller's own map: after a call with the map [{"f": "F"}] the caller's
    dict has two entries. *)
Theorem plot_feat_barplot_mutates_caller_map :
  let h : heap := {[ 0%nat := {[ "f" := "F" ]} ]} in
  fst (plot_feat_barplot [row "f" 0.3%Q] (Some 15) (Some 0%nat) h) !! 0%nat
  = Some (<[ "Pruned Events" := "Pruned Events" ]> {[ "f" := "F" ]}) /\
  fst (plot_feat_barplot [row "f" 0.3%Q] (Some 15) (Some 0%nat) h) !! 0%nat
  <> h !! 0%nat.
Proof.
  intros h. rewrite plot_feat_barplot_heap.
  vm_compute. split; [reflexivity | discriminate].
Qed.

(** ** The cut of [plot_feat_barplot] *)

Lemma select_map {A B} (p : B -> bool) (g : A -> B) (l : list A) :
  select l (map p (map g l)) = List.filter (fun a => p (g a)) l.
Proof.
  induction l as [|a l IH]; simpl; [reflexivity|].
  rewrite IH. reflexivity.
Qed.

(** The cutoff is the fifth largest magnitude of the 'Shapley Value'
    column, but the records kept are chosen by the 'Explanation' column. *)
Lemma cut_top_by_Explanation (feat_data : list Row) (top_x_feats : Z)
    (expl : Row -> Q) :
  top_x_feats < Z.of_nat (length feat_data) ->
  5 <= Z.of_nat (length feat_data) ->
  (forall r, In r feat_data -> Explanation r = Some (expl r)) ->
  exists cutoff,
    kth_largest 5 (map (fun r => Qabs (Shapley_Value r)) feat_data) cutoff /\
    cut_top (Some top_x_feats) (with_sort_col feat_data) =
    Ok (List.filter
          (fun r => Qle_bool cutoff (expl (b_row r))
                    || Qle_bool (expl (b_row r)) (- cutoff))
          (with_sort_col feat_data)).
Proof.
  intros Htop Hlen Hexpl. unfold cut_top.
  assert (Hl : length (with_sort_col feat_data) = length feat_data)
    by (unfold with_sort_col; apply length_map).
  assert (Hkeys : map sort_col (with_sort_col feat_data)
                  = map (fun r => Qabs (Shapley_Value r)) feat_data)
    by (unfold with_sort_col; rewrite map_map; reflexivity).
  rewrite Hl. replace (top_x_feats <? Z.of_nat (length feat_data)) with true
    by (symmetry; apply Z.ltb_lt; exact Htop).
  pose proof (sort_values_desc_perm sort_col (with_sort_col feat_data)) as Hperm.
  pose proof (sort_values_desc_sorted sort_col (with_sort_col feat_data))
    as Hsorted.
  destruct (iloc_nth (sort_values_desc sort_col (with_sort_col feat_data)) 4)
    as (e & Hnth & Hiloc).
  { rewrite sort_values_desc_length, Hl. lia. }
  rewrite Hiloc. simpl.
  assert (He : In e (with_sort_col feat_data))
    by (eapply Permutation_in; [exact Hperm | eapply nth_error_In, Hnth]).
  assert (Hsc : sort_col e = Qabs (Shapley_Value (b_row e))).
  { unfold with_sort_col in He. apply in_map_iff in He as (r & <- & _).
    reflexivity. }
  exists (sort_col e). split.
  - destruct (rank_in_sorted sort_col _ _ e Hsorted Hnth) as [Hgt Hge].
    unfold count in *.
    rewrite (filter_length_perm _ _ _ (Permutation_map sort_col Hperm)), Hkeys
      in Hgt.
    rewrite (filter_length_perm _ _ _ (Permutation_map sort_col Hperm)), Hkeys
      in Hge.
    split; [|unfold count; simpl in *; lia].
    rewrite <- Hkeys. apply in_map, He.
  - unfold col_Explanation.
    rewrite (map_result_Ok _ (fun r => expl (b_row r))).
    2:{ intros r Hr. unfold with_sort_col in Hr.
        apply in_map_iff in Hr as (r0 & <- & Hr0). simpl.
        rewrite (Hexpl r0 Hr0). reflexivity. }
    simpl. rewrite Hsc.
    rewrite <- (select_map
      (fun x => Qle_bool (Qabs (Shapley_Value (b_row e))) x
                || Qle_bool x (- Qabs (Shapley_Value (b_row e))))
      (fun r => expl (b_row r))).
    reflexivity.
Qed.

(** On a table without the 'Explanation' column the cut raises. *)
Lemma cut_top_KeyError (feat_data : list Row) (top_x_feats : Z) :
  top_x_feats < Z.of_nat (length feat_data) ->
  5 <= Z.of_nat (length feat_data) ->
  (forall r, In r feat_data -> Explanation r = None) ->
  cut_top (Some top_x_feats) (with_sort_col feat_data) =
  Raise (KeyError "Explanation").
Proof.
  intros Htop Hlen Hexpl. unfold cut_top.
  assert (Hl : length (with_sort_col feat_data) = length feat_data)
    by (unfold with_sort_col; apply length_map).
  rewrite Hl. replace (top_x_feats <? Z.of_nat (length feat_data)) with true
    by (symmetry; apply Z.ltb_lt; exact Htop).
  destruct (iloc_nth (sort_values_desc sort_col (with_sort_col feat_data)) 4)
    as (e & Hnth & Hiloc).
  { rewrite sort_values_desc_length, Hl. lia. }
  rewrite Hiloc. simpl.
  destruct feat_data as [|r rows]; [simpl in Hlen; lia|].
  unfold with_sort_col, col_Explanation. simpl.
  rewrite (Hexpl r) by (left; reflexivity). reflexivity.
Qed.

(** C1: with six records and [top_x_feats = 5] the cut is taken, and
    reading the column 'Explanation' raises a key error: no record is
    retained and no chart is returned. *)
Theorem plot_feat_barplot_reads_Explanation :
  snd (plot_feat_barplot local_example (Some 5) None ∅)
  = Raise (KeyError "Explanation").
Proof. reflexivity. Qed.

(** ** Relabelling *)

Lemma map_result_inv {A B} (f : A -> result B) (g : A -> B) (l : list A)
    (bs : list B) :
  (forall a b, f a = Ok b -> b = g a) ->
  map_result f l = Ok bs -> bs = map g l.
Proof.
  intros Hfg. revert bs. induction l as [|a l IH]; simpl; intros bs.
  - intros [= <-]. reflexivity.
  - destruct (f a) as [b|e] eqn:Ha; simpl; [|discriminate].
    destruct (map_result f l) as [bs'|e]; simpl; [|discriminate].
    intros [= <-]. rewrite (Hfg a b Ha), (IH bs' eq_refl). reflexivity.
Qed.

Lemma map_result_defined {A B} (f : A -> result B) (l : list A) (bs : list B) :
  map_result f l = Ok bs -> forall a, In a l -> exists b, f a = Ok b.
Proof.
  revert bs. induction l as [|a l IH]; simpl; intros bs Hl a' Ha'; [tauto|].
  destruct (f a) as [b|e] eqn:Ha; simpl in Hl; [|discriminate].
  destruct (map_result f l) as [bs'|e]; simpl in Hl; [|discriminate].
  destruct Ha' as [<-|Ha']; [exists b; exact Ha | eapply IH; eauto].
Qed.

Lemma getitem_label (d : dict) (x y : string) :
  getitem d x = Ok y -> y = label_of (Some d) x.
Proof.
  unfold getitem, label_of. destruct (d !! x); [|discriminate].
  intros [= <-]. reflexivity.
Qed.

Lemma getitem_Ok (d : dict) (x : string) :
  (exists y, getitem d x = Ok y) <-> is_Some (d !! x).
Proof.
  unfold getitem. destruct (d !! x) as [y|].
  - split; intros _; exists y; reflexivity.
  - split; intros [y Hy]; discriminate.
Qed.

Lemma relabel_Ok (d : dict) (feat_data feat_data' : list PlotRow)
    (sort_features sort_features' : list string) :
  relabel d feat_data sort_features = Ok (feat_data', sort_features') ->
  feat_data' = map (relabel_row (Some d)) feat_data /\
  sort_features' = map (label_of (Some d)) sort_features /\
  (forall p, In p feat_data -> is_Some (d !! p_Feature p)).
Proof.
  unfold relabel.
  destruct (map_result _ feat_data) as [fd|e] eqn:Hfd; simpl; [|discriminate].
  destruct (map_result _ sort_features) as [sf|e] eqn:Hsf; simpl;
    [|discriminate].
  intros [= <- <-]. repeat split.
  - eapply map_result_inv; [|exact Hfd].
    intros p p'. simpl.
    destruct (getitem d (p_Feature p)) as [y|e] eqn:Hy; simpl;
      [|discriminate].
    intros [= <-]. unfold relabel_row. rewrite (getitem_label _ _ _ Hy).
    reflexivity.
  - eapply map_result_inv; [|exact Hsf]. apply getitem_label.
  - intros p Hp. destruct (map_result_defined _ _ _ Hfd p Hp) as [p' Hp'].
    simpl in Hp'. apply getitem_Ok.
    destruct (getitem d (p_Feature p)) as [y|e];
      [exists y; reflexivity | discriminate].
Qed.

(** What a chart returned by [plot] is made of. *)
Lemma plot_Ok (feat_data : list Row) (top_x_feats : Z)
    (threshold : option Q) (plot_features : option loc)
    (plot_parameters : option (gmap string pyobj)) (h : heap)
    (c : PointChart) :
  snd (plot feat_data top_x_feats threshold plot_features plot_parameters h)
  = Ok c ->
  exists t tbl order,
    compute_threshold (groupby_mean feat_data) top_x_feats threshold = Ok t /\
    long_form feat_data top_x_feats threshold = Ok (tbl, order) /\
    (forall d, display_map h plot_features = Some d ->
       forall p, In p tbl -> is_Some (d !! p_Feature p)) /\
    c = point_chart plot_parameters
          (map (relabel_row (display_map h plot_features)) tbl)
          (map (label_of (display_map h plot_features)) order).
Proof.
  rewrite plot_result.
  destruct (long_form feat_data top_x_feats threshold) as [[tbl order]|e]
    eqn:Hlf; simpl; [|discriminate].
  assert (Ht : exists t,
    compute_threshold (groupby_mean feat_data) top_x_feats threshold = Ok t).
  { unfold long_form in Hlf.
    destruct (compute_threshold _ _ _) as [t|e]; [eauto | discriminate]. }
  destruct Ht as [t Ht].
  destruct (display_map h plot_features) as [d|] eqn:Hd.
  - destruct (relabel d tbl order) as [[tbl' order']|e] eqn:Hrel; simpl;
      [|discriminate].
    apply relabel_Ok in Hrel as (-> & -> & Hdef).
    intros [= <-]. exists t, tbl, order. repeat split; try assumption.
    intros d' [= <-]. exact Hdef.
  - simpl. intros [= <-]. exists t, tbl, order.
    repeat split; try assumption; [discriminate|].
    f_equal; symmetry; [|apply map_id].
    erewrite map_ext; [apply map_id|]. intros [f v ty]. reflexivity.
Qed.

(** ** The feature order *)

(** The sort order of the specification's example: the overflow marker
    stands between A and B, not at the end. *)
Lemma overflow_marker_not_last :
  exists c,
    snd (plot global_example 2 None None None ∅) = Ok c /\
    y_sort c = ["A"; "(...)"; "B"] /\
    List.last (y_sort c) "" = "B" /\
    List.last (y_sort c) "" <> overflow.
Proof.
  eexists. split; [reflexivity|]. split; [reflexivity|].
  split; [reflexivity | discriminate].
Qed.

(** C4, amended: the sort order lists the labels of the features kept and
    of the overflow marker in descending order of their means, where the
    overflow marker counts as a feature of mean 0, whatever its sentinel
    value: it follows the features of positive mean and precedes those of
    negative mean. *)
Theorem sort_order_descending (feat_data : list Row) (top_x_feats : Z)
    (threshold : option Q) (plot_features : option loc)
    (plot_parameters : option (gmap string pyobj)) (h : heap)
    (c : PointChart) :
  snd (plot feat_data top_x_feats threshold plot_features plot_parameters h)
  = Ok c ->
  exists t ranked,
    compute_threshold (groupby_mean feat_data) top_x_feats threshold = Ok t /\
    Permutation ranked
      (keep_features (groupby_mean feat_data) t
       ++ (if truthy t then [(overflow, 0%Q)] else [])) /\
    StronglySorted (desc snd) ranked /\
    y_sort c =
      map (fun e => label_of (display_map h plot_features) (fst e)) ranked.
Proof.
  intros Hc.
  destruct (plot_Ok _ _ _ _ _ _ _ Hc) as (t & tbl & order & Ht & Hlf & _ & ->).
  rewrite (long_form_eq _ _ _ _ Ht) in Hlf. injection Hlf as _ <-.
  exists t. eexists. split; [exact Ht|].
  split; [apply sort_values_desc_perm|].
  split; [apply sort_values_desc_sorted|].
  simpl. rewrite map_map. reflexivity.
Qed.

Lemma sort_order_descending_witness :
  exists t ranked,
    compute_threshold (groupby_mean global_example) 2 None = Ok t /\
    Permutation ranked
      (keep_features (groupby_mean global_example) t
       ++ (if truthy t then [(overflow, 0%Q)] else [])) /\
    StronglySorted (desc snd) ranked /\
    ["A"; "(...)"; "B"] =
      map (fun e => label_of (display_map ∅ None) (fst e)) ranked.
Proof.
  exact (sort_order_descending global_example 2 None None None ∅ _ eq_refl).
Defined.

(** ** Plot parameters *)

(** The table and the order of a chart do not depend on the plot
    parameters. *)
Lemma plot_parameters_only_chart (feat_data : list Row) (top_x_feats : Z)
    (threshold : option Q) (plot_features : option loc)
    (plot_parameters : option (gmap string pyobj)) (h : heap)
    (c : PointChart) :
  snd (plot feat_data top_x_feats threshold plot_features plot_parameters h)
  = Ok c ->
  exists tbl order,
    forall pp,
      snd (plot feat_data top_x_feats threshold plot_features pp h)
      = Ok (point_chart pp tbl order).
Proof.
  rewrite plot_result.
  destruct (long_form feat_data top_x_feats threshold) as [lf|e] eqn:Hlf;
    simpl; [|discriminate].
  destruct (match display_map h plot_features with
            | Some d => relabel d (fst lf) (snd lf)
            | None => Ok lf
            end) as [r|e] eqn:Hr; simpl; [|discriminate].
  intros _. exists (fst r), (snd r). intros pp.
  rewrite plot_result, Hlf. simpl. rewrite Hr. reflexivity.
Qed.

Lemma get_insert_ne (p : gmap string pyobj) (k key : string) (v dflt : pyobj) :
  k <> key -> get (<[k := v]> p) key dflt = get p key dflt.
Proof. intros Hne. unfold get. rewrite lookup_insert_ne by exact Hne. reflexivity. Qed.

(** A value stored under "font_size" is not used: the label font size
    of the chart stays 13. *)
Lemma font_size_key_not_read :
  exists c,
    snd (plot global_example 12 None None
           (Some {[ "font_size" := PyInt 20 ]}) ∅) = Ok c /\
    labelFontSize c = PyInt 13 /\
    labelFontSize c <> PyInt 20.
Proof.
  eexists. split; [vm_compute; reflexivity|].
  split; [reflexivity | discriminate].
Qed.

(** C6, amended: the chart takes its height, width and label font size
    from the keys "height", "width" and "FontSize", with the defaults 280,
    288 and 13; without plot parameters the value axis is [-0.2, 0.6];
    any key other than these and the axis key changes nothing. *)
Theorem plot_parameters_read (feat_data : list Row) (top_x_feats : Z)
    (threshold : option Q) (plot_features : option loc)
    (p : gmap string pyobj) (h : heap) (c : PointChart) :
  snd (plot feat_data top_x_feats threshold plot_features (Some p) h) = Ok c ->
  height c = default (PyInt 280) (p !! "height") /\
  width c = default (PyInt 288) (p !! "width") /\
  labelFontSize c = default (PyInt 13) (p !! "FontSize") /\
  (forall k v,
     k <> "height" -> k <> "width" -> k <> "FontSize" ->
     k <> "axis_lim" -> k <> "axis_lims" ->
     snd (plot feat_data top_x_feats threshold plot_features
            (Some (<[k := v]> p)) h) = Ok c) /\
  (exists c0,
     snd (plot feat_data top_x_feats threshold plot_features None h) = Ok c0 /\
     data c0 = data c /\ y_sort c0 = y_sort c /\
     height c0 = PyInt 280 /\ width c0 = PyInt 288 /\
     labelFontSize c0 = PyInt 13 /\ x_domain c0 = PyList [-0.2; 0.6]%Q).
Proof.
  intros Hc.
  destruct (plot_parameters_only_chart _ _ _ _ _ _ _ Hc) as (tbl & order & Hpp).
  rewrite Hpp in Hc. injection Hc as <-.
  split; [|split; [|split; [|split]]].
  - unfold point_chart, get. simpl. destruct (p !! "height"); reflexivity.
  - unfold point_chart, get. simpl. destruct (p !! "width"); reflexivity.
  - unfold point_chart, get. simpl. destruct (p !! "FontSize"); reflexivity.
  - intros k v H1 H2 H3 H4 H5. rewrite Hpp. unfold point_chart.
    rewrite !get_insert_ne by assumption. reflexivity.
  - eexists. split; [apply Hpp|]. repeat split.
Qed.

Lemma plot_parameters_read_witness :
  exists c,
    snd (plot global_example 2 None None
           (Some {[ "height" := PyInt 300; "colour" := PyStr "red" ]}) ∅)
    = Ok c /\
    height c = PyInt 300 /\ width c = PyInt 288 /\ labelFontSize c = PyInt 13.
Proof.
  eexists. split; [vm_compute; reflexivity|].
  destruct (plot_parameters_read global_example 2 None None
              {[ "height" := PyInt 300; "colour" := PyStr "red" ]} ∅ _
              ltac:(vm_compute; reflexivity)) as (H1 & H2 & H3 & _).
  split; [exact H1|]. split; [exact H2 | exact H3].
Defined.

(** ** The empty table *)




Lemma relabel_overflow_rows (d : dict) :
  relabel (<[overflow := overflow]> d) [overflow_raw; overflow_mean] [overflow]
  = Ok ([overflow_raw; overflow_mean], [overflow]).
Proof.
  unfold relabel, getitem. simpl. rewrite lookup_insert_eq. reflexivity.
Qed.

Lemma relabel_nil (d : dict) : relabel d [] [] = Ok ([], []).
Proof. reflexivity. Qed.


Lemma display_map_overflow (h : heap) (plot_features : option loc) (d : dict) :
  display_map h plot_features = Some d -> d !! overflow = Some overflow.
Proof.
  unfold display_map. destruct plot_features as [l|]; [|discriminate].
  destruct (dict_truthy (deref h l)); [|discriminate].
  intros [= <-]. apply lookup_insert_eq.
Qed.




(** ** Lookup errors *)

Lemma plot_feat_barplot_result (feat_data : list Row) (top_x_feats : option Z)
    (plot_features : option loc) (h : heap) :
  snd (plot_feat_barplot feat_data top_x_feats plot_features h) =
  (feat_data ← match barplot_map h plot_features with
               | Some d => relabel_rows d feat_data
               | None => Ok feat_data
               end;
   feat_data ← cut_top top_x_feats (with_sort_col feat_data);
   Ok (bar_chart feat_data)).
Proof.
  unfold plot_feat_barplot, barplot_map.
  destruct plot_features as [l|]; [|reflexivity].
  destruct (dict_truthy (deref h l)); [|reflexivity].
  simpl. rewrite deref_setitem. reflexivity.
Qed.

Lemma getitem_raises (d : dict) (x : string) :
  raises (getitem d x) <-> d !! x = None.
Proof.
  unfold getitem. destruct (d !! x) as [y|].
  - split; [intros [e He]; discriminate | discriminate].
  - split; [reflexivity | intros _; eexists; reflexivity].
Qed.

Lemma bind_Ok_raises {A B} (r : result A) (g : A -> B) :
  raises (a ← r; Ok (g a)) <-> raises r.
Proof.
  destruct r as [a|e]; simpl.
  - split; intros [e He]; discriminate.
  - split; intros _; exists e; reflexivity.
Qed.

Lemma relabel_rows_raises (d : dict) (feat_data : list Row) :
  raises (relabel_rows d feat_data) <->
  exists r, In r feat_data /\ d !! Feature r = None.
Proof.
  unfold relabel_rows. rewrite map_result_raises.
  split; intros (r & Hr & H); exists r; (split; [exact Hr|]).
  - apply getitem_raises. eapply bind_Ok_raises. exact H.
  - apply (bind_Ok_raises (getitem d (Feature r))
             (fun f => mkRow f (Shapley_Value r) (Explanation r) (Group r))).
    apply getitem_raises, H.
Qed.

Lemma relabel_raises (d : dict) (feat_data : list PlotRow)
    (sort_features : list string) :
  raises (relabel d feat_data sort_features) <->
  (exists p, In p feat_data /\ d !! p_Feature p = None) \/
  (exists x, In x sort_features /\ d !! x = None).
Proof.
  assert (Hfd : raises
    (map_result
       (fun r => f ← getitem d (p_Feature r);
                 Ok (mkPlotRow f (p_Shapley_Value r) (p_type r)))
       feat_data)
    <-> exists p, In p feat_data /\ d !! p_Feature p = None).
  { rewrite map_result_raises.
    split; intros (r & Hr & H); exists r; (split; [exact Hr|]).
    - apply getitem_raises. eapply bind_Ok_raises. exact H.
    - apply (bind_Ok_raises (getitem d (p_Feature r))
               (fun f => mkPlotRow f (p_Shapley_Value r) (p_type r))).
      apply getitem_raises, H. }
  assert (Hsf : raises (map_result (getitem d) sort_features)
    <-> exists x, In x sort_features /\ d !! x = None).
  { rewrite map_result_raises.
    split; intros (x & Hx & H); exists x; (split; [exact Hx|]);
      apply getitem_raises, H. }
  rewrite <- Hfd, <- Hsf. unfold relabel.
  destruct (map_result _ feat_data) as [fd|e]; simpl.
  - destruct (map_result (getitem d) sort_features) as [sf|e]; simpl.
    + split; [intros [e He]; discriminate|].
      intros [[e He]|[e He]]; discriminate.
    + split; [intros _; right; exists e; reflexivity|].
      intros _. exists e. reflexivity.
  - split; [intros _; left; exists e; reflexivity|].
    intros _. exists e. reflexivity.
Qed.

(** The features of the long-form table and of the feature order are the
    features kept, and the overflow marker under an active threshold. *)
Lemma long_form_features (feat_data : list Row) (top_x_feats : Z)
    (threshold t : option Q) (tbl : list PlotRow) (order : list string) :
  compute_threshold (groupby_mean feat_data) top_x_feats threshold = Ok t ->
  long_form feat_data top_x_feats threshold = Ok (tbl, order) ->
  (forall f,
     In f (map p_Feature tbl) <->
     In f (map fst (keep_features (groupby_mean feat_data) t)) \/
     (truthy t = true /\ f = overflow)) /\
  (forall f,
     In f order <->
     In f (map fst (keep_features (groupby_mean feat_data) t)) \/
     (truthy t = true /\ f = overflow)).
Proof.
  intros Ht Hlf. rewrite (long_form_eq _ _ _ _ Ht) in Hlf.
  injection Hlf as <- <-. split; intros f.
  - rewrite !map_app, !in_app_iff, !map_map.
    assert (Hraw : In f (map (fun r => p_Feature (raw_row r))
       (List.filter
          (fun r => isin (Feature r) (keep_features (groupby_mean feat_data) t))
          feat_data))
       -> In f (map fst (keep_features (groupby_mean feat_data) t))).
    { intros H. apply in_map_iff in H as (r & <- & Hr).
      apply List.filter_In in Hr as [_ Hr]. apply isin_In, Hr. }
    assert (Hmean : map (fun e => p_Feature (mean_row (fst e) (snd e)))
                      (keep_features (groupby_mean feat_data) t)
                    = map fst (keep_features (groupby_mean feat_data) t)).
    { apply map_ext. intros e. apply mean_row_Feature. }
    rewrite Hmean. destruct (truthy t); simpl.
    + split; [intros [H|[[H|[]]|[H|[H|[]]]]]; auto | intros [H|[_ ->]]; auto].
    + split; [intros [H|[[]|[H|[]]]]; auto | intros [H|[H _]]; [auto|discriminate]].
  - assert (Hperm := Permutation_map fst
      (sort_values_desc_perm snd
         (keep_features (groupby_mean feat_data) t
          ++ (if truthy t then [(overflow, 0%Q)] else [])))).
    split.
    + intros H. apply (Permutation_in _ Hperm) in H.
      rewrite map_app, in_app_iff in H. destruct H as [H|H]; [left; exact H|].
      destruct (truthy t); simpl in H; [|tauto].
      destruct H as [<-|[]]. right. split; reflexivity.
    + intros H. apply (Permutation_in _ (Permutation_sym Hperm)).
      rewrite map_app, in_app_iff. destruct H as [H|[Ha ->]]; [left; exact H|].
      right. rewrite Ha. left. reflexivity.
Qed.

(** A map without labels for C and D: both are in the input, both are
    dropped by the threshold before the lookup, and the chart is
    returned. *)
Lemma dropped_feature_not_looked_up :
  let h : heap := {[ 0%nat := {[ "A" := "a"; "B" := "b" ]} ]} in
  (exists r d,
     In r global_example /\
     display_map h (Some 0%nat) = Some d /\
     d !! Feature r = None) /\
  (exists c, snd (plot global_example 2 None (Some 0%nat) None h) = Ok c).
Proof.
  intros h. split.
  - exists (row "C" 0.1%Q). eexists. split; [simpl; tauto|].
    split; [vm_compute; reflexivity | vm_compute; reflexivity].
  - eexists. vm_compute. reflexivity.
Qed.

(** C8, amended: with a non-empty display-name map, [plot_feat_barplot]
    raises a lookup error in relabelling exactly when a feature of the
    input has no entry in the map extended by "Pruned Events", and [plot]
    of [plot_global_feat] raises exactly when a feature kept after the
    threshold has no entry in the copy extended by "Pruned Events" and
    "(...)"; the markers always have their entries. *)
Theorem relabel_lookup_error (feat_data : list Row) (l : loc) (h : heap) :
  dict_truthy (deref h l) = true ->
  (let d := <[Pruned_Events := Pruned_Events]> (deref h l) in
   (raises (relabel_rows d feat_data) <->
    exists r, In r feat_data /\ d !! Feature r = None) /\
   (forall top_x_feats e,
      relabel_rows d feat_data = Raise e ->
      snd (plot_feat_barplot feat_data top_x_feats (Some l) h) = Raise e /\
      exists r, In r feat_data /\ d !! Feature r = None
                /\ e = KeyError (Feature r)) /\
   d !! Pruned_Events = Some Pruned_Events) /\
  (let d := <[overflow := overflow]>
              (<[Pruned_Events := Pruned_Events]> (deref h l)) in
   (forall top_x_feats threshold plot_parameters t,
      compute_threshold (groupby_mean feat_data) top_x_feats threshold = Ok t ->
      raises (snd (plot feat_data top_x_feats threshold (Some l)
                     plot_parameters h))
      <-> exists e, In e (keep_features (groupby_mean feat_data) t)
                    /\ d !! fst e = None) /\
   d !! Pruned_Events = Some Pruned_Events /\
   d !! overflow = Some overflow).
Proof.
  intros Hne. split; cbv zeta.
  - split; [apply relabel_rows_raises|]. split; [|apply lookup_insert_eq].
    intros top_x_feats e He. split.
    + rewrite plot_feat_barplot_result. unfold barplot_map. rewrite Hne, He.
      reflexivity.
    + unfold relabel_rows in He.
      apply map_result_Raise in He as (r & Hr & He). exists r.
      split; [exact Hr|]. unfold getitem in He.
      destruct (_ !! Feature r); simpl in He; [discriminate|].
      injection He as <-. split; reflexivity.
  - split; [|split; [|apply lookup_insert_eq]].
    2:{ rewrite lookup_insert_ne by discriminate. apply lookup_insert_eq. }
    intros top_x_feats threshold plot_parameters t Ht.
    pose proof (long_form_eq _ _ _ _ Ht) as Hlf.
    destruct (long_form_features _ _ _ _ _ _ Ht Hlf) as [Htbl Hord].
    rewrite plot_result, Hlf. unfold display_map. rewrite Hne.
    cbn [mbind result_bind fst snd].
    rewrite bind_Ok_raises, relabel_raises.
    split.
    + intros [(p & Hp & Hmiss)|(x & Hx & Hmiss)].
      * destruct (proj1 (Htbl (p_Feature p)) (in_map _ _ _ Hp)) as [H|[_ H]].
        -- apply in_map_iff in H as (e & He & Hin). exists e.
           split; [exact Hin | rewrite He; exact Hmiss].
        -- rewrite H, lookup_insert_eq in Hmiss. discriminate.
      * destruct (proj1 (Hord x) Hx) as [H|[_ H]].
        -- apply in_map_iff in H as (e & He & Hin). exists e.
           split; [exact Hin | rewrite He; exact Hmiss].
        -- rewrite H, lookup_insert_eq in Hmiss. discriminate.
    + intros (e & Hin & Hmiss). right. exists (fst e).
      split; [|exact Hmiss]. apply Hord. left. apply in_map, Hin.
Qed.

Lemma relabel_lookup_error_witness :
  let h : heap := {[ 0%nat := {[ "A" := "a"; "B" := "b" ]} ]} in
  dict_truthy (deref h 0%nat) = true /\
  (raises (relabel_rows (<[Pruned_Events := Pruned_Events]> (deref h 0%nat))
             global_example) <->
   exists r, In r global_example /\
             <[Pruned_Events := Pruned_Events]> (deref h 0%nat) !! Feature r
             = None).
Proof.
  intros h.
  assert (Hne : dict_truthy (deref h 0%nat) = true) by (vm_compute; reflexivity).
  split; [exact Hne|].
  destruct (relabel_lookup_error global_example 0%nat h Hne) as [[H _] _].
  exact H.
Defined.

(** ** Raw records and their means *)

Lemma filter_map_length {A B} (p : B -> bool) (g : A -> B) (l : list A) :
  length (List.filter p (map g l)) = length (List.filter (fun a => p (g a)) l).
Proof.
  induction l as [|a l IH]; simpl; [reflexivity|].
  destruct (p (g a)); simpl; congruence.
Qed.

Lemma NoDup_count_one (f : string) (l : list string) :
  List.NoDup l -> In f l ->
  length (List.filter (fun k => String.eqb k f) l) = 1%nat.
Proof.
  induction 1 as [|k l Hnin Hnd IH]; intros Hin; [destruct Hin|].
  simpl. destruct (String.eqb_spec k f) as [->|Hne].
  - simpl. rewrite filter_none; [reflexivity|].
    intros k Hk. apply String.eqb_neq. intros ->. contradiction.
  - destruct Hin as [->|Hin]; [congruence | apply IH, Hin].
Qed.

Lemma NoDup_map_inj {A B} (g : A -> B) (l : list A) :
  (forall a b, In a l -> In b l -> g a = g b -> a = b) ->
  List.NoDup l -> List.NoDup (map g l).
Proof.
  intros Hinj Hnd. induction Hnd as [|a l Hnin Hnd IH]; simpl; constructor.
  - intros Hin. apply in_map_iff in Hin as (b & Hb & Hin).
    apply Hnin. rewrite <- (Hinj b a); [exact Hin | right; exact Hin
      | left; reflexivity | exact Hb].
  - apply IH. intros x y Hx Hy. apply Hinj; right; assumption.
Qed.

Lemma mean_keys_NoDup (feat_data : list Row) (t : option Q) :
  (forall r, In r feat_data -> Feature r <> overflow) ->
  List.NoDup (mean_keys feat_data t).
Proof.
  intros Hfresh. unfold mean_keys.
  destruct (truthy t); [|rewrite app_nil_r; apply keep_features_NoDup].
  apply List.NoDup_app;
    [apply keep_features_NoDup | constructor; [intros []|constructor] |].
  intros f Hf [<-|[]].
  destruct (keep_features_input _ _ _ Hf) as (r & Hr & Heq).
  exact (Hfresh r Hr Heq).
Qed.

(** The ['Mean'] rows of the relabelled table, counted by label. *)
Lemma mean_rows_count (feat_data : list Row) (top_x_feats : Z)
    (threshold t : option Q) (tbl : list PlotRow) (order : list string)
    (m : option dict) (f : string) :
  compute_threshold (groupby_mean feat_data) top_x_feats threshold = Ok t ->
  long_form feat_data top_x_feats threshold = Ok (tbl, order) ->
  length (List.filter (is_row f type_Mean) (map (relabel_row m) tbl)) =
  length (List.filter (fun k => String.eqb k f)
            (map (label_of m) (mean_keys feat_data t))).
Proof.
  intros Ht Hlf. rewrite (long_form_eq _ _ _ _ Ht) in Hlf.
  injection Hlf as <- _.
  rewrite !filter_map_length. unfold mean_keys.
  rewrite !List.filter_app, !length_app.
  rewrite (filter_none _ (map raw_row _)).
  2:{ intros p Hp. apply in_map_iff in Hp as (r & <- & _).
      unfold is_row. simpl. apply andb_false_r. }
  rewrite filter_map_length.
  assert (Hmeans :
    List.filter (fun e : string * Q =>
                   is_row f type_Mean (relabel_row m (mean_row (fst e) (snd e))))
      (keep_features (groupby_mean feat_data) t)
    = List.filter (fun e => String.eqb (label_of m (fst e)) f)
        (keep_features (groupby_mean feat_data) t)).
  { apply List.filter_ext. intros e. unfold is_row, relabel_row. simpl.
    rewrite mean_row_Feature, mean_row_type. simpl. apply andb_true_r. }
  rewrite Hmeans, (filter_map_length (fun k => String.eqb (label_of m k) f) fst).
  destruct (truthy t); simpl.
  - unfold is_row. simpl. rewrite andb_false_r, andb_true_r.
    destruct (String.eqb (label_of m overflow) f); simpl; lia.
  - lia.
Qed.

(** Two features under one label, and an input feature that carries the
    name of the overflow marker: in both tables a feature with raw
    records has two ['Mean'] rows. *)
Lemma two_mean_rows :
  (let h : heap := {[ 0%nat := {[ "A" := "X"; "B" := "X" ]} ]} in
   exists c,
     snd (plot [row "A" 0.5; row "B" 0.25]%Q 12 None (Some 0%nat) None h)
     = Ok c /\
     In (mkPlotRow "X" (Some 0.5%Q) type_Shapley_Value) (data c) /\
     length (List.filter (is_row "X" type_Mean) (data c)) = 2%nat) /\
  (exists c,
     snd (plot [row "(...)" 0.5; row "B" 0.25]%Q 12 (Some 0.1%Q) None None ∅)
     = Ok c /\
     In (mkPlotRow "(...)" (Some 0.5%Q) type_Shapley_Value) (data c) /\
     length (List.filter (is_row "(...)" type_Mean) (data c)) = 2%nat).
Proof.
  split.
  - intros h. eexists. split; [vm_compute; reflexivity|].
    split; [left; reflexivity | reflexivity].
  - eexists. split; [vm_compute; reflexivity|].
    split; [left; reflexivity | reflexivity].
Qed.

(** C7, amended: when no input feature is named "(...)" and the display
    map in use gives no two features the same label, every feature with a
    row tagged "Shapley Value" in the table of the chart has exactly one
    row tagged "Mean". *)
Theorem mean_row_pairing (feat_data : list Row) (top_x_feats : Z)
    (threshold : option Q) (plot_features : option loc)
    (plot_parameters : option (gmap string pyobj)) (h : heap)
    (c : PointChart) :
  snd (plot feat_data top_x_feats threshold plot_features plot_parameters h)
  = Ok c ->
  (forall r, In r feat_data -> Feature r <> overflow) ->
  (forall d f g y,
     display_map h plot_features = Some d ->
     d !! f = Some y -> d !! g = Some y -> f = g) ->
  forall p,
    In p (data c) -> p_type p = type_Shapley_Value ->
    length (List.filter (is_row (p_Feature p) type_Mean) (data c)) = 1%nat.
Proof.
  intros Hc Hfresh Hinj p Hp Hty.
  destruct (plot_Ok _ _ _ _ _ _ _ Hc)
    as (t & tbl & order & Ht & Hlf & Hdef & ->).
  simpl in Hp |- *.
  rewrite (mean_rows_count _ _ _ _ _ _ _ _ Ht Hlf).
  destruct (long_form_features _ _ _ _ _ _ Ht Hlf) as [Htbl _].
  assert (Hkeys : forall k, In k (mean_keys feat_data t) ->
                            In k (map p_Feature tbl)).
  { intros k Hk. apply Htbl. unfold mean_keys in Hk.
    apply in_app_iff in Hk as [Hk|Hk]; [left; exact Hk|].
    destruct (truthy t); [|destruct Hk].
    destruct Hk as [<-|[]]. right. split; reflexivity. }
  apply NoDup_count_one.
  - apply NoDup_map_inj; [|apply mean_keys_NoDup, Hfresh].
    intros a b Ha Hb Hab.
    destruct (display_map h plot_features) as [d|] eqn:Hd; [|exact Hab].
    apply Hkeys, in_map_iff in Ha as (pa & <- & Hpa).
    apply Hkeys, in_map_iff in Hb as (pb & <- & Hpb).
    destruct (Hdef d eq_refl pa Hpa) as [ya Hya].
    destruct (Hdef d eq_refl pb Hpb) as [yb Hyb].
    simpl in Hab. rewrite Hya, Hyb in Hab. simpl in Hab. subst yb.
    exact (Hinj d _ _ ya eq_refl Hya Hyb).
  - apply in_map_iff in Hp as (p0 & <- & Hp0). simpl.
    apply in_map. rewrite (long_form_eq _ _ _ _ Ht) in Hlf.
    injection Hlf as <- _. simpl in Hty. unfold mean_keys.
    rewrite in_app_iff. repeat rewrite in_app_iff in Hp0.
    destruct Hp0 as [H|[H|[H|H]]].
    + apply in_map_iff in H as (r & <- & Hr).
      apply List.filter_In in Hr as [_ Hr]. left. apply isin_In, Hr.
    + destruct (truthy t); [|destruct H]. destruct H as [<-|[]].
      right. left. reflexivity.
    + apply in_map_iff in H as (e & <- & _).
      rewrite mean_row_type in Hty. discriminate.
    + destruct (truthy t); [|destruct H]. destruct H as [<-|[]].
      discriminate.
Qed.

Lemma mean_row_pairing_witness :
  exists c,
    snd (plot global_example 2 None None None ∅) = Ok c /\
    length (List.filter (is_row "A" type_Mean) (data c)) = 1%nat.
Proof.
  eexists. split; [vm_compute; reflexivity|].
  apply (mean_row_pairing global_example 2 None None None ∅ _
           ltac:(vm_compute; reflexivity)
           ltac:(intros r Hr;
                 repeat (destruct Hr as [<-|Hr]; [discriminate|]);
                 destruct Hr)
           ltac:(intros d f g y Hd; discriminate)
           (mkPlotRow "A" (Some 0.5%Q) type_Shapley_Value)
           ltac:(left; reflexivity) eq_refl).
Defined.

(** * Further properties of [plot_feat_barplot] *)

Lemma relabel_rows_labelled (d : dict) (feat_data : list Row) :
  (forall r, In r feat_data -> is_Some (d !! Feature r)) ->
  relabel_rows d feat_data = Ok (map (relabel_Row (Some d)) feat_data).
Proof.
  intros Hl. unfold relabel_rows. apply map_result_Ok.
  intros r Hr. destruct (Hl r Hr) as [y Hy].
  unfold getitem, relabel_Row, label_of. rewrite Hy. reflexivity.
Qed.

Lemma relabel_Row_None (feat_data : list Row) :
  map (relabel_Row None) feat_data = feat_data.
Proof.
  erewrite map_ext; [apply map_id|]. intros [f v e g]. reflexivity.
Qed.

(** With every label present the call is the cut of the relabelled
    table. *)
Lemma plot_feat_barplot_labelled (feat_data : list Row)
    (top_x_feats : option Z) (plot_features : option loc) (h : heap) :
  labelled (barplot_map h plot_features) feat_data ->
  snd (plot_feat_barplot feat_data top_x_feats plot_features h) =
  (feat_data ← cut_top top_x_feats
     (with_sort_col
        (map (relabel_Row (barplot_map h plot_features)) feat_data));
   Ok (bar_chart feat_data)).
Proof.
  intros Hl. rewrite plot_feat_barplot_result.
  destruct (barplot_map h plot_features) as [d|].
  - rewrite (relabel_rows_labelled d feat_data (Hl d eq_refl)). reflexivity.
  - rewrite relabel_Row_None. reflexivity.
Qed.

(** X1: without a limit, or with no more records than [top_x_feats], and
    with a label for every feature, the chart shows every record of the
    input, in the order of the input, under its label and with the
    absolute value as sort key. *)
Theorem barplot_shows_all (feat_data : list Row) (top_x_feats : option Z)
    (plot_features : option loc) (h : heap) :
  labelled (barplot_map h plot_features) feat_data ->
  (forall k, top_x_feats = Some k -> Z.of_nat (length feat_data) <= k) ->
  snd (plot_feat_barplot feat_data top_x_feats plot_features h) =
  Ok (bar_chart
        (map (fun r =>
                mkBarRow (relabel_Row (barplot_map h plot_features) r)
                  (Qabs (Shapley_Value r)))
           feat_data)).
Proof.
  intros Hl Htop. rewrite (plot_feat_barplot_labelled _ _ _ _ Hl).
  unfold cut_top, with_sort_col. rewrite map_map.
  destruct top_x_feats as [k|]; [|reflexivity].
  rewrite length_map.
  replace (k <? Z.of_nat (length feat_data)) with false
    by (symmetry; apply Z.ltb_ge, Htop; reflexivity).
  reflexivity.
Qed.

Lemma barplot_shows_all_witness :
  snd (plot_feat_barplot local_example (Some 6) None ∅) =
  Ok (bar_chart
        (map (fun r =>
                mkBarRow (relabel_Row (barplot_map ∅ None) r)
                  (Qabs (Shapley_Value r)))
           local_example)).
Proof.
  apply (barplot_shows_all local_example (Some 6) None ∅).
  - intros d Hd. discriminate.
  - intros k [= <-]. simpl. lia.
Defined.

(** X2: with more records than [top_x_feats] but fewer than five, the
    record at rank index 4 does not exist and the call raises an index
    error. *)
Theorem barplot_IndexError (feat_data : list Row) (top_x_feats : Z)
    (plot_features : option loc) (h : heap) :
  labelled (barplot_map h plot_features) feat_data ->
  top_x_feats < Z.of_nat (length feat_data) < 5 ->
  snd (plot_feat_barplot feat_data (Some top_x_feats) plot_features h)
  = Raise IndexError.
Proof.
  intros Hl Hlen. rewrite (plot_feat_barplot_labelled _ _ _ _ Hl).
  unfold cut_top, with_sort_col. rewrite !length_map.
  replace (top_x_feats <? Z.of_nat (length feat_data)) with true
    by (symmetry; apply Z.ltb_lt; lia).
  rewrite iloc_out_of_range; [reflexivity|].
  rewrite sort_values_desc_length, !length_map. lia.
Qed.

Lemma barplot_IndexError_witness :
  snd (plot_feat_barplot [row "a" 0.3; row "b" 0.2; row "c" 0.1]%Q
         (Some 2) None ∅)
  = Raise IndexError.
Proof.
  apply barplot_IndexError.
  - intros d Hd. discriminate.
  - simpl. lia.
Defined.

(** X3: on a table of at least five records, more than [top_x_feats],
    that has no column 'Explanation', the call raises the key error of
    that column, whatever the values. *)
Theorem barplot_KeyError_Explanation (feat_data : list Row)
    (top_x_feats : Z) (plot_features : option loc) (h : heap) :
  labelled (barplot_map h plot_features) feat_data ->
  top_x_feats < Z.of_nat (length feat_data) ->
  5 <= Z.of_nat (length feat_data) ->
  (forall r, In r feat_data -> Explanation r = None) ->
  snd (plot_feat_barplot feat_data (Some top_x_feats) plot_features h)
  = Raise (KeyError "Explanation").
Proof.
  intros Hl Htop Hlen Hexpl. rewrite (plot_feat_barplot_labelled _ _ _ _ Hl).
  rewrite cut_top_KeyError; [reflexivity | | |].
  - rewrite length_map. exact Htop.
  - rewrite length_map. exact Hlen.
  - intros r Hr. apply in_map_iff in Hr as (r0 & <- & Hr0).
    simpl. apply Hexpl, Hr0.
Qed.

Lemma barplot_KeyError_Explanation_witness :
  snd (plot_feat_barplot local_example (Some 3) None ∅)
  = Raise (KeyError "Explanation").
Proof.
  apply barplot_KeyError_Explanation.
  - intros d Hd. discriminate.
  - simpl. lia.
  - simpl. lia.
  - intros r Hr.
    repeat (destruct Hr as [<-|Hr]; [reflexivity|]). destruct Hr.
Defined.

(** X4: on a table of at least five records, more than [top_x_feats],
    that has the column 'Explanation', the cutoff is the fifth largest
    absolute 'Shapley Value', and the chart shows, in input order, the
    records whose 'Explanation' is at least the cutoff or at most its
    negation. *)
Theorem barplot_cut_by_Explanation (feat_data : list Row)
    (top_x_feats : Z) (plot_features : option loc) (h : heap) :
  labelled (barplot_map h plot_features) feat_data ->
  top_x_feats < Z.of_nat (length feat_data) ->
  5 <= Z.of_nat (length feat_data) ->
  (forall r, In r feat_data -> is_Some (Explanation r)) ->
  exists cutoff,
    kth_largest 5 (map (fun r => Qabs (Shapley_Value r)) feat_data) cutoff /\
    snd (plot_feat_barplot feat_data (Some top_x_feats) plot_features h) =
    Ok (bar_chart
          (List.filter (beyond_cutoff cutoff)
             (with_sort_col
                (map (relabel_Row (barplot_map h plot_features)) feat_data)))).
Proof.
  intros Hl Htop Hlen Hexpl. rewrite (plot_feat_barplot_labelled _ _ _ _ Hl).
  set (m := barplot_map h plot_features).
  destruct (cut_top_by_Explanation (map (relabel_Row m) feat_data) top_x_feats
              (fun r => default 0%Q (Explanation r)))
    as (cutoff & Hrank & Hcut).
  - rewrite length_map. exact Htop.
  - rewrite length_map. exact Hlen.
  - intros r Hr. apply in_map_iff in Hr as (r0 & <- & Hr0). simpl.
    destruct (Hexpl r0 Hr0) as [e ->]. reflexivity.
  - exists cutoff. split.
    + rewrite map_map in Hrank. exact Hrank.
    + rewrite Hcut. simpl. do 2 f_equal.
      apply List.filter_ext_in. intros b Hb. unfold beyond_cutoff.
      unfold with_sort_col in Hb.
      apply in_map_iff in Hb as (r & <- & Hr).
      apply in_map_iff in Hr as (r0 & <- & Hr0). simpl.
      destruct (Hexpl r0 Hr0) as [e ->]. reflexivity.
Qed.

Lemma barplot_cut_by_Explanation_witness :
  exists cutoff,
    kth_largest 5
      (map (fun r => Qabs (Shapley_Value r))
         (map (fun r => mkRow (Feature r) (Shapley_Value r)
                          (Some (Shapley_Value r)) None) local_example))
      cutoff /\
    snd (plot_feat_barplot
           (map (fun r => mkRow (Feature r) (Shapley_Value r)
                            (Some (Shapley_Value r)) None) local_example)
           (Some 5) None ∅) =
    Ok (bar_chart
          (List.filter (beyond_cutoff cutoff)
             (with_sort_col
                (map (relabel_Row (barplot_map ∅ None))
                   (map (fun r => mkRow (Feature r) (Shapley_Value r)
                                    (Some (Shapley_Value r)) None)
                      local_example))))).
Proof.
  apply barplot_cut_by_Explanation.
  - intros d Hd. discriminate.
  - simpl. lia.
  - simpl. lia.
  - intros r Hr.
    repeat (destruct Hr as [<-|Hr]; [eexists; reflexivity|]). destruct Hr.
Defined.

(** X5: whatever the outcome of the call, [plot_feat_barplot] leaves
    every other dict object as it was and changes, in the map it was
    given, at most the entry of "Pruned Events", which a non-empty map
    holds afterwards with the identity label; without a map the heap is
    unchanged. *)
Theorem barplot_heap_frame (feat_data : list Row) (top_x_feats : option Z)
    (l : loc) (h : heap) :
  (forall l', l' <> l ->
     fst (plot_feat_barplot feat_data top_x_feats (Some l) h) !! l' = h !! l') /\
  (forall k, k <> Pruned_Events ->
     deref (fst (plot_feat_barplot feat_data top_x_feats (Some l) h)) l !! k
     = deref h l !! k) /\
  (dict_truthy (deref h l) = true ->
   deref (fst (plot_feat_barplot feat_data top_x_feats (Some l) h)) l
     !! Pruned_Events = Some Pruned_Events) /\
  fst (plot_feat_barplot feat_data top_x_feats None h) = h.
Proof.
  rewrite plot_feat_barplot_heap.
  split; [|split; [|split; [|reflexivity]]].
  - intros l' Hne. destruct (dict_truthy (deref h l)); [|reflexivity].
    apply setitem_other. congruence.
  - intros k Hk. destruct (dict_truthy (deref h l)); [|reflexivity].
    rewrite deref_setitem. apply lookup_insert_ne. congruence.
  - intros ->. rewrite deref_setitem. apply lookup_insert_eq.
Qed.

(** X6: an empty display-name map is no map: nothing is relabelled, no
    label is looked up, no dict is written or created, in both
    functions. *)
Theorem empty_map_is_no_map (feat_data : list Row) (l : loc) (h : heap) :
  deref h l = ∅ ->
  (forall top_x_feats,
     plot_feat_barplot feat_data top_x_feats (Some l) h
     = plot_feat_barplot feat_data top_x_feats None h) /\
  (forall top_x_feats threshold plot_parameters,
     plot feat_data top_x_feats threshold (Some l) plot_parameters h
     = plot feat_data top_x_feats threshold None plot_parameters h).
Proof.
  intros He. split.
  - intros top_x_feats. unfold plot_feat_barplot. rewrite He. reflexivity.
  - intros top_x_feats threshold plot_parameters. unfold plot.
    rewrite He. reflexivity.
Qed.

Lemma empty_map_is_no_map_witness :
  plot global_example 2 None (Some 0%nat) None {[ 0%nat := ∅ ]}
  = plot global_example 2 None None None {[ 0%nat := ∅ ]}.
Proof.
  apply (empty_map_is_no_map global_example 0%nat {[ 0%nat := ∅ ]}).
  vm_compute. reflexivity.
Defined.

(** * Further properties of [plot_global_feat] *)

(** X7: [plot] never writes to a dict object of the caller, and the only
    object it may create is the copy of the display-name map with the two
    marker entries. *)
Theorem plot_copy_only (feat_data : list Row) (top_x_feats : Z)
    (threshold : option Q) (plot_features : option loc)
    (plot_parameters : option (gmap string pyobj)) (h : heap) :
  (forall l d,
     h !! l = Some d ->
     fst (plot feat_data top_x_feats threshold plot_features
            plot_parameters h) !! l = Some d) /\
  (forall l,
     is_Some (fst (plot feat_data top_x_feats threshold plot_features
                     plot_parameters h) !! l) ->
     is_Some (h !! l) \/
     fst (plot feat_data top_x_feats threshold plot_features
            plot_parameters h) !! l = display_map h plot_features).
Proof.
  split; [intros l d; apply plot_heap|].
  intros l. unfold plot, display_map.
  destruct (long_form feat_data top_x_feats threshold) as [[tbl order]|e];
    simpl; [|left; assumption].
  destruct plot_features as [l0|]; simpl; [|left; assumption].
  destruct (dict_truthy (deref h l0)); simpl; [|left; assumption].
  destruct (decide (l = fresh (dom h))) as [->|Hne].
  - intros _. right. unfold setitem at 1. rewrite lookup_insert_eq.
    rewrite deref_setitem, deref_insert. reflexivity.
  - rewrite !setitem_other by congruence.
    rewrite lookup_insert_ne by congruence. left. assumption.
Qed.

Lemma iloc_in_range {A} (l : list A) (i : Z) :
  - Z.of_nat (length l) <= i < Z.of_nat (length l) ->
  exists a, iloc l i = Ok a.
Proof.
  intros Hi. destruct (Z.ltb_spec i 0) as [Hneg|Hpos].
  - destruct (iloc_nth l (Z.of_nat (length l) + i)) as (a & Hn & _); [lia|].
    exists a. unfold iloc.
    replace (i <? 0) with true by (symmetry; apply Z.ltb_lt; lia).
    replace ((0 <=? Z.of_nat (length l) + i)
             && (Z.of_nat (length l) + i <? Z.of_nat (length l)))
      with true
      by (symmetry; apply andb_true_iff; split;
          [apply Z.leb_le | apply Z.ltb_lt]; lia).
    rewrite Hn. reflexivity.
  - destruct (iloc_nth l i) as (a & _ & Ha); [lia|]. exists a. exact Ha.
Qed.

Lemma relabel_KeyError (d : dict) (feat_data : list PlotRow)
    (sort_features : list string) (e : exn) :
  relabel d feat_data sort_features = Raise e -> exists k, e = KeyError k.
Proof.
  unfold relabel.
  destruct (map_result _ feat_data) as [fd|e1] eqn:Hfd; simpl.
  - destruct (map_result (getitem d) sort_features) as [sf|e2] eqn:Hsf;
      simpl; [discriminate|].
    intros [= <-]. apply map_result_Raise in Hsf as (x & _ & Hx).
    unfold getitem in Hx. destruct (d !! x); [discriminate|].
    injection Hx as <-. eexists. reflexivity.
  - intros [= <-]. apply map_result_Raise in Hfd as (p & _ & Hp).
    simpl in Hp. unfold getitem in Hp.
    destruct (d !! p_Feature p); simpl in Hp; [discriminate|].
    injection Hp as <-. eexists. reflexivity.
Qed.

Lemma long_form_Raise (feat_data : list Row) (top_x_feats : Z)
    (threshold : option Q) (e : exn) :
  long_form feat_data top_x_feats threshold = Raise e <->
  compute_threshold (groupby_mean feat_data) top_x_feats threshold = Raise e.
Proof.
  destruct (compute_threshold (groupby_mean feat_data) top_x_feats threshold)
    as [t|e'] eqn:Ht.
  - rewrite (long_form_eq _ _ _ _ Ht). split; discriminate.
  - unfold long_form. rewrite Ht. simpl.
    split; intros [= ->]; reflexivity.
Qed.

(** X8: without a threshold, [plot] raises an index error exactly when
    [top_x_feats] is at most minus the number of distinct features: from
    there on [top_x_feats - 1] is no index of the sorted means, while 0
    and the negative values above that bound count from the end. *)
Theorem plot_IndexError_iff (feat_data : list Row) (top_x_feats : Z)
    (plot_features : option loc)
    (plot_parameters : option (gmap string pyobj)) (h : heap) :
  snd (plot feat_data top_x_feats None plot_features plot_parameters h)
  = Raise IndexError
  <-> top_x_feats <= - Z.of_nat (length (groupby_mean feat_data)).
Proof.
  rewrite plot_result.
  set (avg_df := groupby_mean feat_data).
  set (sorted := sort_values_desc snd
                   (map (fun e : string * Q => (fst e, Qabs (snd e))) avg_df)).
  assert (Hlen : length sorted = length avg_df)
    by (unfold sorted; rewrite sort_values_desc_length; apply length_map).
  assert (Hthr : compute_threshold avg_df top_x_feats None =
                 if top_x_feats <=? Z.of_nat (length avg_df)
                 then e ← iloc sorted (top_x_feats - 1); Ok (Some (snd e))
                 else Ok None) by reflexivity.
  split.
  - destruct (long_form feat_data top_x_feats None) as [lf|e] eqn:Hlf; simpl.
    + destruct (display_map h plot_features) as [d|]; simpl; [|discriminate].
      destruct (relabel d (fst lf) (snd lf)) as [r|e] eqn:Hr; simpl;
        [discriminate|].
      intros [= ->]. apply relabel_KeyError in Hr as [k Hk]. discriminate.
    + intros [= ->]. apply long_form_Raise in Hlf. fold avg_df in Hlf.
      rewrite Hthr in Hlf.
      destruct (Z.leb_spec top_x_feats (Z.of_nat (length avg_df))) as [Hle|Hgt];
        [|discriminate].
      destruct (Z.le_gt_cases top_x_feats (- Z.of_nat (length avg_df)))
        as [Hout|Hin]; [exact Hout|].
      destruct (iloc_in_range sorted (top_x_feats - 1)) as [a Ha];
        [rewrite Hlen; lia|].
      rewrite Ha in Hlf. discriminate.
  - intros Hout.
    assert (Hlf : long_form feat_data top_x_feats None = Raise IndexError).
    { apply long_form_Raise. fold avg_df. rewrite Hthr.
      replace (top_x_feats <=? Z.of_nat (length avg_df)) with true
        by (symmetry; apply Z.leb_le; lia).
      rewrite iloc_out_of_range; [reflexivity|]. rewrite Hlen. lia. }
    rewrite Hlf. reflexivity.
Qed.

Lemma plot_IndexError_iff_witness :
  snd (plot global_example (-4) None None None ∅) = Raise IndexError.
Proof.
  apply (plot_IndexError_iff global_example (-4) None None ∅).
  simpl. lia.
Defined.

(** The test of line 108 compares the magnitude of the mean with the
    threshold. *)
Lemma keep_test_abs (m t : Q) :
  Qle_bool m (- t) || Qle_bool t m = Qle_bool t (Qabs m).
Proof.
  apply eq_true_iff_eq.
  rewrite orb_true_iff, !Qle_bool_iff.
  split.
  - intros [H|H]; apply Qabs_case; intros; lra.
  - revert m. intros m. apply Qabs_case; intros H0 H.
    + right. exact H.
    + left. lra.
Qed.

Lemma keep_features_abs (avg_df : Series) (t : Q) :
  truthy (Some t) = true ->
  keep_features avg_df (Some t) =
  List.filter (fun e => Qle_bool t (Qabs (snd e))) avg_df.
Proof.
  intros Ha. unfold keep_features. rewrite Ha.
  apply List.filter_ext. intros e. apply keep_test_abs.
Qed.

(** X9: with a threshold supplied and not zero, [top_x_feats] plays no
    part: for every [top_x_feats] the feature order holds the overflow
    marker and exactly the features whose mean has a magnitude of at
    least the threshold. *)
Theorem supplied_threshold_by_magnitude (feat_data : list Row)
    (top_x_feats : Z) (t : Q) :
  ~ (t == 0)%Q ->
  exists tbl order,
    long_form feat_data top_x_feats (Some t) = Ok (tbl, order) /\
    forall f,
      In f order <->
      (exists m, In (f, m) (groupby_mean feat_data) /\ (t <= Qabs m)%Q)
      \/ f = overflow.
Proof.
  intros Hnz.
  assert (Ha : truthy (Some t) = true).
  { unfold truthy. apply negb_true_iff.
    destruct (Qeq_bool t 0) eqn:Hz; [|reflexivity].
    apply Qeq_bool_iff in Hz. contradiction. }
  assert (Ht : compute_threshold (groupby_mean feat_data) top_x_feats (Some t)
               = Ok (Some t)) by reflexivity.
  pose proof (long_form_eq _ _ _ _ Ht) as Hlf.
  destruct (long_form_features _ _ _ _ _ _ Ht Hlf) as [_ Hord].
  eexists _, _. split; [exact Hlf|].
  intros f. rewrite Hord, (keep_features_abs _ _ Ha), in_map_iff.
  split.
  - intros [([g m] & <- & He) | [_ Hf]]; [left | right; exact Hf].
    apply List.filter_In in He as [He Hm]. simpl in *.
    exists m. split; [exact He | apply Qle_bool_iff, Hm].
  - intros [(m & He & Hm) | Hf]; [left | right; split; [exact Ha | exact Hf]].
    exists (f, m). split; [reflexivity|].
    apply List.filter_In. split; [exact He | apply Qle_bool_iff, Hm].
Qed.

Lemma supplied_threshold_by_magnitude_witness :
  exists tbl order,
    long_form global_example 1 (Some 0.3%Q) = Ok (tbl, order) /\
    forall f,
      In f order <->
      (exists m, In (f, m) (groupby_mean global_example)
                 /\ (0.3 <= Qabs m)%Q)
      \/ f = overflow.
Proof.
  apply (supplied_threshold_by_magnitude global_example 1 0.3%Q).
  intros H. vm_compute in H. discriminate.
Defined.

(** X10: when the threshold is computed from [top_x_feats], at least
    [top_x_feats] features are kept, and fewer than [top_x_feats] of them
    have a mean of larger magnitude than the threshold: more than
    [top_x_feats] features are shown only when means tie with it. *)
Theorem top_x_keeps_at_least (feat_data : list Row) (top_x_feats : Z) :
  1 <= top_x_feats <= Z.of_nat (length (groupby_mean feat_data)) ->
  exists t,
    compute_threshold (groupby_mean feat_data) top_x_feats None = Ok (Some t) /\
    top_x_feats
    <= Z.of_nat (length (keep_features (groupby_mean feat_data) (Some t))) /\
    Z.of_nat (length (List.filter (fun e => Qlt_bool t (Qabs (snd e)))
                        (groupby_mean feat_data)))
    < top_x_feats.
Proof.
  intros Htop.
  destruct (compute_threshold_rank _ _ Htop) as (t & Ht & _ & Hgt & Hge).
  exists t. split; [exact Ht|].
  unfold count in Hgt, Hge. rewrite filter_map_length in Hgt, Hge.
  split; [|exact Hgt].
  destruct (truthy (Some t)) eqn:Ha.
  - rewrite (keep_features_abs _ _ Ha). exact Hge.
  - unfold keep_features. rewrite Ha. lia.
Qed.

Lemma top_x_keeps_at_least_witness :
  exists t,
    compute_threshold (groupby_mean global_example) 2 None = Ok (Some t) /\
    2 <= Z.of_nat (length (keep_features (groupby_mean global_example)
                             (Some t))) /\
    Z.of_nat (length (List.filter (fun e => Qlt_bool t (Qabs (snd e)))
                        (groupby_mean global_example)))
    < 2.
Proof.
  apply (top_x_keeps_at_least global_example 2). simpl. lia.
Defined.

(** X11: a negative threshold drops nothing, and the overflow rows are
    added all the same. *)
Theorem negative_threshold_keeps_all (feat_data : list Row)
    (top_x_feats : Z) (t : Q) :
  (t < 0)%Q ->
  long_form feat_data top_x_feats (Some t) =
  Ok (map raw_row feat_data ++ [overflow_raw]
      ++ map (fun e => mean_row (fst e) (snd e)) (groupby_mean feat_data)
      ++ [overflow_mean],
      map fst
        (sort_values_desc snd (groupby_mean feat_data ++ [(overflow, 0%Q)]))).
Proof.
  intros Hneg.
  assert (Ha : truthy (Some t) = true).
  { unfold truthy. apply negb_true_iff.
    destruct (Qeq_bool t 0) eqn:Hz; [|reflexivity].
    apply Qeq_bool_iff in Hz. lra. }
  assert (Hkeep : keep_features (groupby_mean feat_data) (Some t)
                  = groupby_mean feat_data).
  { rewrite (keep_features_abs _ _ Ha). apply filter_all.
    intros e _. apply Qle_bool_iff.
    pose proof (Qabs_nonneg (snd e)). lra. }
  rewrite (long_form_eq feat_data top_x_feats (Some t) (Some t) eq_refl).
  rewrite Hkeep, Ha.
  rewrite filter_all; [reflexivity|].
  intros r Hr. apply isin_groupby_mean, Hr.
Qed.

Lemma negative_threshold_keeps_all_witness :
  long_form global_example 2 (Some (-1)%Q) =
  Ok (map raw_row global_example ++ [overflow_raw]
      ++ map (fun e => mean_row (fst e) (snd e)) (groupby_mean global_example)
      ++ [overflow_mean],
      map fst
        (sort_values_desc snd
           (groupby_mean global_example ++ [(overflow, 0%Q)]))).
Proof.
  apply (negative_threshold_keeps_all global_example 2 (-1)%Q).
  reflexivity.
Defined.

Lemma filter_map_commute {A B} (p : B -> bool) (g : A -> B) (l : list A) :
  List.filter p (map g l) = map g (List.filter (fun a => p (g a)) l).
Proof.
  induction l as [|a l IH]; simpl; [reflexivity|].
  destruct (p (g a)); simpl; congruence.
Qed.

(** The features of the ['Mean'] rows of the relabelled table. *)
Lemma mean_rows_features (feat_data : list Row) (top_x_feats : Z)
    (threshold t : option Q) (tbl : list PlotRow) (order : list string)
    (m : option dict) :
  compute_threshold (groupby_mean feat_data) top_x_feats threshold = Ok t ->
  long_form feat_data top_x_feats threshold = Ok (tbl, order) ->
  map p_Feature (List.filter is_Mean (map (relabel_row m) tbl)) =
  map (label_of m) (mean_keys feat_data t).
Proof.
  intros Ht Hlf. rewrite (long_form_eq _ _ _ _ Ht) in Hlf.
  injection Hlf as <- _.
  rewrite filter_map_commute, map_map. unfold mean_keys.
  rewrite !List.filter_app, !map_app.
  rewrite (filter_none _ (map raw_row _)).
  2:{ intros p Hp. apply in_map_iff in Hp as (r & <- & _). reflexivity. }
  rewrite (filter_all _ (map (fun e => mean_row (fst e) (snd e)) _)).
  2:{ intros p Hp. apply in_map_iff in Hp as (e & <- & _).
      unfold is_Mean, relabel_row. simpl. rewrite mean_row_type.
      reflexivity. }
  rewrite !map_map. simpl.
  assert (Hmeans :
    map (fun e : string * Q =>
           label_of m (p_Feature (mean_row (fst e) (snd e))))
      (keep_features (groupby_mean feat_data) t)
    = map (fun e => label_of m (fst e))
        (keep_features (groupby_mean feat_data) t)).
  { apply map_ext. intros e. rewrite mean_row_Feature. reflexivity. }
  rewrite Hmeans. destruct (truthy t); reflexivity.
Qed.

(** X12: the sort order given to the renderer lists the features of the
    "Mean" rows of the table, each as often as it has such a row (once,
    when no two features share a label): no feature of the table is left
    without a position, no position is without a row. *)
Theorem sort_order_covers_means (feat_data : list Row) (top_x_feats : Z)
    (threshold : option Q) (plot_features : option loc)
    (plot_parameters : option (gmap string pyobj)) (h : heap)
    (c : PointChart) :
  snd (plot feat_data top_x_feats threshold plot_features plot_parameters h)
  = Ok c ->
  Permutation (y_sort c) (map p_Feature (List.filter is_Mean (data c))).
Proof.
  intros Hc.
  destruct (plot_Ok _ _ _ _ _ _ _ Hc) as (t & tbl & order & Ht & Hlf & _ & ->).
  simpl. rewrite (mean_rows_features _ _ _ _ _ _ _ Ht Hlf).
  rewrite (long_form_eq _ _ _ _ Ht) in Hlf. injection Hlf as _ <-.
  apply Permutation_map. unfold mean_keys.
  rewrite (sort_values_desc_perm snd), map_app.
  destruct (truthy t); reflexivity.
Qed.

Lemma sort_order_covers_means_witness :
  Permutation ["A"; "(...)"; "B"]
    (map p_Feature
       (List.filter is_Mean
          [mkPlotRow "A" (Some 0.5%Q) type_Shapley_Value;
           mkPlotRow "B" (Some (-0.4)%Q) type_Shapley_Value;
           overflow_raw;
           mkPlotRow "A" (Some (1 # 2)%Q) type_Mean;
           mkPlotRow "B" (Some (-2 # 5)%Q) type_Mean;
           overflow_mean])).
Proof.
  exact (sort_order_covers_means global_example 2 None None None ∅ _ eq_refl).
Defined.

(** X13: under an active threshold the chart holds the two overflow rows
    and the overflow position under the label "(...)" itself, whatever
    label the caller's map gives to "(...)". *)
Theorem overflow_label_fixed (feat_data : list Row) (top_x_feats : Z)
    (threshold t : option Q) (plot_features : option loc)
    (plot_parameters : option (gmap string pyobj)) (h : heap)
    (c : PointChart) :
  snd (plot feat_data top_x_feats threshold plot_features plot_parameters h)
  = Ok c ->
  compute_threshold (groupby_mean feat_data) top_x_feats threshold = Ok t ->
  truthy t = true ->
  In overflow_raw (data c) /\ In overflow_mean (data c) /\
  In overflow (y_sort c).
Proof.
  intros Hc Ht Ha.
  destruct (plot_Ok _ _ _ _ _ _ _ Hc)
    as (t' & tbl & order & Ht' & Hlf & _ & ->).
  rewrite Ht in Ht'. injection Ht' as <-.
  assert (Hl : label_of (display_map h plot_features) overflow = overflow).
  { destruct (display_map h plot_features) as [d|] eqn:Hd; [|reflexivity].
    simpl. rewrite (display_map_overflow _ _ _ Hd). reflexivity. }
  assert (Hraw : relabel_row (display_map h plot_features) overflow_raw
                 = overflow_raw)
    by (unfold relabel_row; simpl; rewrite Hl; reflexivity).
  assert (Hmean : relabel_row (display_map h plot_features) overflow_mean
                  = overflow_mean)
    by (unfold relabel_row; simpl; rewrite Hl; reflexivity).
  destruct (long_form_features _ _ _ _ _ _ Ht Hlf) as [_ Hord].
  rewrite (long_form_eq _ _ _ _ Ht) in Hlf. injection Hlf as <- _.
  rewrite Ha. simpl. split; [|split].
  - rewrite <- Hraw at 1. apply in_map.
    apply in_or_app. right. left. reflexivity.
  - rewrite <- Hmean at 1. apply in_map.
    apply in_or_app. right. right.
    apply in_or_app. right. left. reflexivity.
  - rewrite <- Hl at 1. apply in_map. apply Hord. right.
    split; [exact Ha | reflexivity].
Qed.

Lemma overflow_label_fixed_witness :
  let h : heap :=
    {[ 0%nat := {[ "A" := "a"; "B" := "b"; "(...)" := "more" ]} ]} in
  exists c,
    snd (plot global_example 2 None (Some 0%nat) None h) = Ok c /\
    In overflow_raw (data c) /\ In overflow_mean (data c) /\
    In overflow (y_sort c).
Proof.
  intros h. eexists. split; [vm_compute; reflexivity|].
  apply (overflow_label_fixed global_example 2 None (Some (2 # 5)%Q)
           (Some 0%nat) None h _
           ltac:(vm_compute; reflexivity) eq_refl eq_refl).
Defined.

Lemma map_result_first_Raise {A B} (f : A -> result B) (l1 l2 : list A)
    (a : A) (e : exn) :
  (forall x, In x l1 -> exists b, f x = Ok b) ->
  f a = Raise e ->
  map_result f (l1 ++ a :: l2) = Raise e.
Proof.
  intros Hl1 Ha. induction l1 as [|x l1 IH]; simpl.
  - rewrite Ha. reflexivity.
  - destruct (Hl1 x (or_introl eq_refl)) as [b ->]. simpl.
    rewrite IH by (intros y Hy; apply Hl1; right; exact Hy).
    reflexivity.
Qed.

(** X15: when labels are missing, the key error of [plot_feat_barplot]
    names the first feature, in the order of the table, that the map has
    no entry for; no chart is returned. *)
Theorem barplot_first_missing_label (l1 l2 : list Row) (r : Row)
    (top_x_feats : option Z) (plot_features : option loc) (h : heap)
    (d : dict) :
  barplot_map h plot_features = Some d ->
  (forall x, In x l1 -> is_Some (d !! Feature x)) ->
  d !! Feature r = None ->
  snd (plot_feat_barplot (l1 ++ r :: l2) top_x_feats plot_features h)
  = Raise (KeyError (Feature r)).
Proof.
  intros Hd Hl1 Hr. rewrite plot_feat_barplot_result, Hd.
  unfold relabel_rows.
  rewrite (map_result_first_Raise _ l1 l2 r (KeyError (Feature r))).
  - reflexivity.
  - intros x Hx. destruct (Hl1 x Hx) as [y Hy].
    unfold getitem. rewrite Hy. eexists. reflexivity.
  - unfold getitem. rewrite Hr. reflexivity.
Qed.

Lemma barplot_first_missing_label_witness :
  let h : heap := {[ 0%nat := {[ "a" := "alpha" ]} ]} in
  snd (plot_feat_barplot ([row "a" 0.3%Q] ++ row "b" 0.2%Q :: [row "c" 0.1%Q])
         (Some 15) (Some 0%nat) h)
  = Raise (KeyError "b").
Proof.
  intros h.
  apply (barplot_first_missing_label [row "a" 0.3%Q] [row "c" 0.1%Q]
           (row "b" 0.2%Q) (Some 15) (Some 0%nat) h
           (<[Pruned_Events := Pruned_Events]> {[ "a" := "alpha" ]})).
  - vm_compute. reflexivity.
  - intros x [<-|[]]. eexists. vm_compute. reflexivity.
  - vm_compute. reflexivity.
Defined.

(** * The threshold and the overflow rows in the chart *)

(** The table and the sort order of a chart, by the threshold in force. *)
Lemma plot_chart (feat_data : list Row) (top_x_feats : Z)
    (threshold t : option Q) (plot_features : option loc)
    (plot_parameters : option (gmap string pyobj)) (h : heap)
    (c : PointChart) :
  snd (plot feat_data top_x_feats threshold plot_features plot_parameters h)
  = Ok c ->
  compute_threshold (groupby_mean feat_data) top_x_feats threshold = Ok t ->
  data c =
    map (relabel_row (display_map h plot_features))
      (map raw_row
         (List.filter
            (fun r => isin (Feature r) (keep_features (groupby_mean feat_data) t))
            feat_data)
       ++ (if truthy t then [overflow_raw] else [])
       ++ map (fun e => mean_row (fst e) (snd e))
            (keep_features (groupby_mean feat_data) t)
       ++ (if truthy t then [overflow_mean] else [])) /\
  y_sort c =
    map (label_of (display_map h plot_features))
      (map fst
         (sort_values_desc snd
            (keep_features (groupby_mean feat_data) t
             ++ (if truthy t then [(overflow, 0%Q)] else [])))).
Proof.
  intros Hc Ht.
  destruct (plot_Ok _ _ _ _ _ _ _ Hc)
    as (t' & tbl & order & Ht' & Hlf & _ & ->).
  rewrite Ht in Ht'. injection Ht' as <-.
  rewrite (long_form_eq _ _ _ _ Ht) in Hlf. injection Hlf as <- <-.
  split; reflexivity.
Qed.

(** Without a display-name map the call returns whenever the threshold
    can be computed. *)
Lemma plot_returns (feat_data : list Row) (top_x_feats : Z)
    (threshold t : option Q)
    (plot_parameters : option (gmap string pyobj)) (h : heap) :
  compute_threshold (groupby_mean feat_data) top_x_feats threshold = Ok t ->
  exists c,
    snd (plot feat_data top_x_feats threshold None plot_parameters h) = Ok c.
Proof.
  intros Ht. rewrite plot_result, (long_form_eq _ _ _ _ Ht). simpl.
  eexists. reflexivity.
Qed.

Lemma relabel_row_overflow (h : heap) (plot_features : option loc) :
  label_of (display_map h plot_features) overflow = overflow /\
  relabel_row (display_map h plot_features) overflow_raw = overflow_raw /\
  relabel_row (display_map h plot_features) overflow_mean = overflow_mean.
Proof.
  assert (Hl : label_of (display_map h plot_features) overflow = overflow).
  { destruct (display_map h plot_features) as [d|] eqn:Hd; [|reflexivity].
    simpl. rewrite (display_map_overflow _ _ _ Hd). reflexivity. }
  split; [exact Hl|].
  split; unfold relabel_row; simpl; rewrite Hl; reflexivity.
Qed.

Lemma kept_row (feat_data : list Row) (t : Q) (r : Row) :
  In r feat_data ->
  isin (Feature r) (keep_features (groupby_mean feat_data) (Some t)) = true <->
  ~ (- t < mean (values_of (Feature r) feat_data) /\
     mean (values_of (Feature r) feat_data) < t)%Q.
Proof.
  intros Hr. rewrite isin_In, in_map_iff. split.
  - intros ([f m] & Hf & Hin). simpl in Hf. subst f.
    apply keep_features_spec in Hin as [Hin Hout]. simpl in Hout.
    apply groupby_mean_In in Hin as [_ ->]. exact Hout.
  - intros Hout.
    exists (Feature r, mean (values_of (Feature r) feat_data)).
    split; [reflexivity|].
    apply keep_features_spec. split; [|exact Hout].
    apply groupby_mean_In. split; [|reflexivity].
    apply group_keys_In. exists r. split; [exact Hr | reflexivity].
Qed.

(** With [top_x_feats = 0] the threshold of the example is its smallest
    absolute mean, 0.05, which is no 0-th largest value, and all four
    features are shown; with [top_x_feats = -4] the call raises.  In both
    cases no threshold is supplied and the number of distinct features is
    at least [top_x_feats]. *)
Lemma nonpositive_top_x_feats :
  (0 <= Z.of_nat (length (groupby_mean global_example)) /\
   compute_threshold (groupby_mean global_example) 0 None
   = Ok (Some (1 # 20)%Q) /\
   ~ kth_largest 0
       (map (fun e => Qabs (snd e)) (groupby_mean global_example))
       (1 # 20)%Q /\
   exists c,
     snd (plot global_example 0 None None None ∅) = Ok c /\
     y_sort c = ["A"; "C"; "D"; "(...)"; "B"]) /\
  (-4 <= Z.of_nat (length (groupby_mean global_example)) /\
   snd (plot global_example (-4) None None None ∅) = Raise IndexError).
Proof.
  split; [split; [simpl; lia|]; split; [reflexivity|]; split|].
  - intros [_ [H _]]. unfold count in H. lia.
  - eexists. split; reflexivity.
  - split; [simpl; lia | reflexivity].
Qed.

(** C2, amended: with no threshold supplied and [top_x_feats] between 1
    and the number of distinct features, the threshold in force is the
    [top_x_feats]-th largest absolute per-feature mean; the chart then
    holds the raw records and the mean of every feature whose mean is not
    strictly inside (-threshold, threshold), and apart from the overflow
    rows nothing else: the features inside are dropped from the table
    and from the sort order. *)
Theorem plot_top_x_threshold (feat_data : list Row) (top_x_feats : Z)
    (plot_features : option loc)
    (plot_parameters : option (gmap string pyobj)) (h : heap) :
  1 <= top_x_feats <= Z.of_nat (length (groupby_mean feat_data)) ->
  exists t,
    compute_threshold (groupby_mean feat_data) top_x_feats None = Ok (Some t) /\
    kth_largest top_x_feats
      (map (fun e => Qabs (snd e)) (groupby_mean feat_data)) t /\
    (exists c,
       snd (plot feat_data top_x_feats None None plot_parameters h) = Ok c) /\
    forall c,
      snd (plot feat_data top_x_feats None plot_features plot_parameters h)
      = Ok c ->
      (forall r,
         In r feat_data ->
         ~ (- t < mean (values_of (Feature r) feat_data) /\
            mean (values_of (Feature r) feat_data) < t)%Q ->
         In (relabel_row (display_map h plot_features) (raw_row r)) (data c)) /\
      (forall f m,
         In (f, m) (groupby_mean feat_data) ->
         ~ (- t < m /\ m < t)%Q ->
         In (relabel_row (display_map h plot_features) (mean_row f m)) (data c)
         /\ In (label_of (display_map h plot_features) f) (y_sort c)) /\
      (forall p,
         In p (data c) ->
         p = overflow_raw \/ p = overflow_mean \/
         (exists r,
            In r feat_data /\
            ~ (- t < mean (values_of (Feature r) feat_data) /\
               mean (values_of (Feature r) feat_data) < t)%Q /\
            p = relabel_row (display_map h plot_features) (raw_row r)) \/
         (exists f m,
            In (f, m) (groupby_mean feat_data) /\
            ~ (- t < m /\ m < t)%Q /\
            p = relabel_row (display_map h plot_features) (mean_row f m))) /\
      (forall x,
         In x (y_sort c) ->
         x = overflow \/
         exists f m,
           In (f, m) (groupby_mean feat_data) /\
           ~ (- t < m /\ m < t)%Q /\
           x = label_of (display_map h plot_features) f).
Proof.
  intros Htop.
  destruct (compute_threshold_rank _ _ Htop) as (t & Ht & Hrank).
  exists t. split; [exact Ht|]. split; [exact Hrank|].
  split; [exact (plot_returns _ _ _ _ plot_parameters h Ht)|].
  intros c Hc.
  destruct (plot_chart _ _ _ _ _ _ _ _ Hc Ht) as [Hdata Hsort].
  destruct (relabel_row_overflow h plot_features) as (Hl & Hraw & Hmean).
  set (M := display_map h plot_features) in *.
  set (kept := keep_features (groupby_mean feat_data) (Some t)) in *.
  assert (Hperm := sort_values_desc_perm snd
            (kept ++ (if truthy (Some t) then [(overflow, 0%Q)] else []))).
  split; [|split; [|split]].
  - intros r Hr Hout. rewrite Hdata. apply in_map.
    apply in_or_app. left. apply in_map. apply List.filter_In.
    split; [exact Hr | apply (kept_row feat_data t r Hr), Hout].
  - intros f m Hin Hout.
    assert (Hk : In (f, m) kept)
      by (apply keep_features_spec; split; [exact Hin | exact Hout]).
    split.
    + rewrite Hdata. apply in_map.
      apply in_or_app. right. apply in_or_app. right.
      apply in_or_app. left.
      apply (in_map (fun e => mean_row (fst e) (snd e)) _ (f, m)), Hk.
    + rewrite Hsort. apply in_map.
      apply (in_map fst _ (f, m)).
      apply (Permutation_in _ (Permutation_sym Hperm)).
      apply in_or_app. left. exact Hk.
  - intros p Hp. rewrite Hdata in Hp.
    apply in_map_iff in Hp as (p0 & <- & Hp0).
    repeat rewrite in_app_iff in Hp0.
    destruct Hp0 as [H|[H|[H|H]]].
    + apply in_map_iff in H as (r & <- & Hr).
      apply List.filter_In in Hr as [Hr Hk].
      right. right. left. exists r. split; [exact Hr|].
      split; [apply (kept_row feat_data t r Hr), Hk | reflexivity].
    + destruct (truthy (Some t)); [|destruct H].
      destruct H as [<-|[]]. left. exact Hraw.
    + apply in_map_iff in H as ([f m] & <- & Hk).
      apply keep_features_spec in Hk as [Hin Hout].
      right. right. right. exists f, m.
      split; [exact Hin|]. split; [exact Hout | reflexivity].
    + destruct (truthy (Some t)); [|destruct H].
      destruct H as [<-|[]]. right. left. exact Hmean.
  - intros x Hx. rewrite Hsort in Hx.
    apply in_map_iff in Hx as (f0 & <- & Hf0).
    apply in_map_iff in Hf0 as ([f m] & <- & He).
    apply (Permutation_in _ Hperm) in He.
    apply in_app_iff in He as [Hk|Ho].
    + apply keep_features_spec in Hk as [Hin Hout].
      right. exists f, m. split; [exact Hin|].
      split; [exact Hout | reflexivity].
    + destruct (truthy (Some t)); [|destruct Ho].
      destruct Ho as [[= <- <-]|[]]. left. exact Hl.
Qed.

Lemma plot_top_x_threshold_witness :
  exists t,
    compute_threshold (groupby_mean global_example) 2 None = Ok (Some t) /\
    kth_largest 2
      (map (fun e => Qabs (snd e)) (groupby_mean global_example)) t /\
    exists c, snd (plot global_example 2 None None None ∅) = Ok c.
Proof.
  assert (H : 1 <= 2 <= Z.of_nat (length (groupby_mean global_example)))
    by (simpl; lia).
  destruct (plot_top_x_threshold global_example 2 None None ∅ H)
    as (t & H1 & H2 & H3 & _).
  exists t. split; [exact H1|]. split; [exact H2 | exact H3].
Defined.

(** The chart of the specification's example with [top_x_feats = 2]: the
    records and means of A and B and the two overflow rows; C and D are
    in neither the table nor the sort order. *)
Example global_example_chart :
  exists c,
    snd (plot global_example 2 None None None ∅) = Ok c /\
    data c =
      [mkPlotRow "A" (Some 0.5%Q) type_Shapley_Value;
       mkPlotRow "B" (Some (-0.4)%Q) type_Shapley_Value;
       overflow_raw;
       mkPlotRow "A" (Some (1 # 2)%Q) type_Mean;
       mkPlotRow "B" (Some (-2 # 5)%Q) type_Mean;
       overflow_mean] /\
    y_sort c = ["A"; "(...)"; "B"].
Proof. eexists. split; [reflexivity|]. split; reflexivity. Qed.

(** A threshold is in force and is 0, computed from [top_x_feats = 2] or
    supplied, and the chart holds no overflow row and no overflow
    position. *)
Lemma zero_threshold_no_overflow :
  (compute_threshold (groupby_mean zero_example) 2 None = Ok (Some 0%Q) /\
   exists c,
     snd (plot zero_example 2 None None None ∅) = Ok c /\
     List.filter is_overflow (data c) = [] /\
     ~ In overflow (y_sort c)) /\
  (exists c,
     snd (plot global_example 12 (Some 0%Q) None None ∅) = Ok c /\
     List.filter is_overflow (data c) = [] /\
     ~ In overflow (y_sort c)).
Proof.
  split; [split; [reflexivity|]|].
  - eexists. split; [reflexivity|]. split; [reflexivity|].
    simpl. intros [H|[H|[]]]; discriminate.
  - eexists. split; [reflexivity|]. split; [reflexivity|].
    simpl. intros [H|[H|[H|[H|[]]]]]; discriminate.
Qed.

Lemma truthy_nonzero (t : option Q) :
  truthy t = true <-> exists q, t = Some q /\ ~ (q == 0)%Q.
Proof.
  unfold truthy. destruct t as [q|].
  - rewrite negb_true_iff. split.
    + intros Hz. exists q. split; [reflexivity|].
      intros Hq. apply Qeq_bool_iff in Hq. congruence.
    + intros (q' & [= <-] & Hq).
      destruct (Qeq_bool q 0) eqn:Hz; [|reflexivity].
      apply Qeq_bool_iff in Hz. contradiction.
  - split; [discriminate | intros (q & Hq & _); discriminate].
Qed.

Lemma truthy_zero (t : option Q) :
  truthy t = false <-> t = None \/ exists q, t = Some q /\ (q == 0)%Q.
Proof.
  unfold truthy. destruct t as [q|].
  - rewrite negb_false_iff, Qeq_bool_iff. split.
    + intros Hz. right. exists q. split; [reflexivity | exact Hz].
    + intros [H|(q' & [= <-] & Hq)]; [discriminate | exact Hq].
  - split; [intros _; left; reflexivity | reflexivity].
Qed.

(** C3, amended: the overflow rows are added exactly when the threshold
    in force, supplied or computed, is not zero.  Then the table of the
    chart is the raw records of the features kept, one raw record
    "(...)" of value -0.6 tagged "Shapley Value", the means of the
    features kept, and one "Mean" row "(...)" without a value; under a
    threshold of zero or none it is the raw records and the means alone.
    With fewer distinct features than [top_x_feats] and no threshold
    supplied, none is in force and every record and feature is kept. *)
Theorem overflow_iff_nonzero_threshold (feat_data : list Row)
    (top_x_feats : Z) (threshold t : option Q) (plot_features : option loc)
    (plot_parameters : option (gmap string pyobj)) (h : heap) :
  compute_threshold (groupby_mean feat_data) top_x_feats threshold = Ok t ->
  (exists c,
     snd (plot feat_data top_x_feats threshold None plot_parameters h)
     = Ok c) /\
  forall c,
    snd (plot feat_data top_x_feats threshold plot_features
           plot_parameters h) = Ok c ->
    ((exists q, t = Some q /\ ~ (q == 0)%Q) ->
     data c =
       map (relabel_row (display_map h plot_features))
         (map raw_row
            (List.filter
               (fun r =>
                  isin (Feature r) (keep_features (groupby_mean feat_data) t))
               feat_data))
       ++ [overflow_raw]
       ++ map (relabel_row (display_map h plot_features))
            (map (fun e => mean_row (fst e) (snd e))
               (keep_features (groupby_mean feat_data) t))
       ++ [overflow_mean]) /\
    (t = None \/ (exists q, t = Some q /\ (q == 0)%Q) ->
     data c =
       map (relabel_row (display_map h plot_features))
         (map raw_row feat_data
          ++ map (fun e => mean_row (fst e) (snd e))
               (groupby_mean feat_data))) /\
    ((forall r, In r feat_data ->
        label_of (display_map h plot_features) (Feature r) <> overflow) ->
     ((exists q, t = Some q /\ ~ (q == 0)%Q) ->
      List.filter is_overflow (data c) = [overflow_raw; overflow_mean]) /\
     (t = None \/ (exists q, t = Some q /\ (q == 0)%Q) ->
      List.filter is_overflow (data c) = [])) /\
    (threshold = None ->
     Z.of_nat (length (groupby_mean feat_data)) < top_x_feats ->
     t = None).
Proof.
  intros Ht. split; [exact (plot_returns _ _ _ _ plot_parameters h Ht)|].
  intros c Hc.
  destruct (plot_chart _ _ _ _ _ _ _ _ Hc Ht) as [Hdata _].
  destruct (relabel_row_overflow h plot_features) as (Hl & Hraw & Hmean).
  set (M := display_map h plot_features) in *.
  assert (Hon : (exists q, t = Some q /\ ~ (q == 0)%Q) ->
    data c =
      map (relabel_row M)
        (map raw_row
           (List.filter
              (fun r =>
                 isin (Feature r) (keep_features (groupby_mean feat_data) t))
              feat_data))
      ++ [overflow_raw]
      ++ map (relabel_row M)
           (map (fun e => mean_row (fst e) (snd e))
              (keep_features (groupby_mean feat_data) t))
      ++ [overflow_mean]).
  { intros Hq. rewrite (proj2 (truthy_nonzero t) Hq) in Hdata.
    rewrite Hdata, !map_app. simpl. rewrite Hraw, Hmean. reflexivity. }
  assert (Hoff : t = None \/ (exists q, t = Some q /\ (q == 0)%Q) ->
    data c =
      map (relabel_row M)
        (map raw_row feat_data
         ++ map (fun e => mean_row (fst e) (snd e)) (groupby_mean feat_data))).
  { intros Hz. rewrite (proj2 (truthy_zero t) Hz) in Hdata.
    assert (Hk : keep_features (groupby_mean feat_data) t
                 = groupby_mean feat_data).
    { unfold keep_features. destruct t as [q|]; [|reflexivity].
      rewrite (proj2 (truthy_zero (Some q)) Hz). reflexivity. }
    rewrite Hk in Hdata. rewrite Hdata, !app_nil_r.
    rewrite filter_all; [reflexivity|].
    intros r Hr. apply isin_groupby_mean, Hr. }
  split; [exact Hon|]. split; [exact Hoff|]. split.
  - intros Hfresh.
    assert (Hrows : forall l : list Row,
      (forall r, In r l -> In r feat_data) ->
      List.filter is_overflow (map (relabel_row M) (map raw_row l)) = []).
    { intros l Hsub. apply filter_none. intros p Hp.
      apply in_map_iff in Hp as (p0 & <- & Hp0).
      apply in_map_iff in Hp0 as (r & <- & Hr).
      apply String.eqb_neq. simpl. apply Hfresh, Hsub, Hr. }
    assert (Hmeans : forall s : Series,
      (forall e, In e s -> In (fst e) (group_keys feat_data)) ->
      List.filter is_overflow
        (map (relabel_row M) (map (fun e => mean_row (fst e) (snd e)) s))
      = []).
    { intros s0 Hsub. apply filter_none. intros p Hp.
      apply in_map_iff in Hp as (p0 & <- & Hp0).
      apply in_map_iff in Hp0 as (e & <- & He).
      apply String.eqb_neq. simpl. rewrite mean_row_Feature.
      destruct (proj1 (group_keys_In _ _) (Hsub e He)) as (r & Hr & <-).
      apply Hfresh, Hr. }
    split.
    + intros Hq. rewrite (Hon Hq), !List.filter_app.
      rewrite Hrows
        by (intros r Hr; apply List.filter_In in Hr; tauto).
      rewrite Hmeans; [reflexivity|].
      intros e He. apply keep_features_In in He.
      rewrite <- groupby_mean_index. apply in_map, He.
    + intros Hz. rewrite (Hoff Hz), map_app, List.filter_app.
      rewrite Hrows by tauto.
      rewrite Hmeans; [reflexivity|].
      intros e He. rewrite <- groupby_mean_index. apply in_map, He.
  - intros -> Hfew. unfold compute_threshold in Ht.
    replace (top_x_feats <=? Z.of_nat (length (groupby_mean feat_data)))
      with false in Ht by (symmetry; apply Z.leb_gt; lia).
    injection Ht as <-. reflexivity.
Qed.

Lemma overflow_iff_nonzero_threshold_witness :
  exists c,
    snd (plot global_example 2 None None None ∅) = Ok c /\
    List.filter is_overflow (data c) = [overflow_raw; overflow_mean].
Proof.
  destruct (overflow_iff_nonzero_threshold global_example 2 None
              (Some (2 # 5)%Q) None None ∅ eq_refl) as [_ H].
  eexists. split; [reflexivity|].
  destruct (H _ eq_refl) as (_ & _ & Hf & _).
  apply Hf.
  - intros r Hr.
    repeat (destruct Hr as [<-|Hr]; [discriminate|]). destruct Hr.
  - exists (2 # 5)%Q. split; [reflexivity|]. intros Hq. discriminate Hq.
Defined.
